(** * Medical equipment maintenance system: model and verified properties

    A shallow embedding of [medical_maintenance_system.py].  The program is a
    form-driven editor over one table of devices kept in the session state;
    the model keeps that table as a list of rows, the session as an explicit
    world, and every handler as a computation in a state-and-exception monad.

    Conventions of the model:
    - a pandas [Timestamp] is an integer number of nanoseconds since the
      epoch, [NaT]/[NaN] is [None]; a [Timedelta]'s [.days] is the floor of
      the quotient by the number of nanoseconds in a day;
    - a Python [str] is the byte string of its UTF-8 encoding; [split('-')],
      [join] and concatenation act on the bytes, [int] on the code points
      they encode;
    - a data frame is the list of its rows in positional order.  Row labels
      are unique throughout the program (fresh from [read_excel], renumbered
      by [concat(..., ignore_index=True)], only thinned by deletion), so a
      write through [.loc[idx, col]] touches exactly one row, which the model
      addresses by position;
    - the clock does not advance during one run of a handler: each
      [pd.Timestamp.now()] of the run reads the [clock] of the world.  Where
      the program relates values obtained from different reads (a metric and
      the status chart, the range of the schedule and its icons), the
      properties are stated for readings in any non-decreasing order, the
      evaluator being run in a world with a later clock;
    - [load_data] is cached by [@st.cache_data]; the cache is kept outside
      the session and passed to the function explicitly. *)

From Stdlib Require Import ZArith Lia Ascii String.
From stdpp Require Import gmap strings list fin_maps sorting pretty.

Open Scope Z_scope.

(** ** Timestamps, dates and time deltas *)

Module Pd.

Abbreviation Timestamp := Z.

(** A [datetime.date], counted in days since 1970-01-01. *)
Abbreviation date := Z.

Definition ns_per_day : Z := 86400000000000.

(** [timedelta(days=n)] *)
Definition timedelta (days : Z) : Z := days * ns_per_day.

(** [td.days]: whole days, rounded towards minus infinity. *)
Definition days (td : Z) : Z := td / ns_per_day.

(** [pd.Timestamp(d)] for a date [d]: midnight of that day. *)
Definition Timestamp_of_date (d : date) : Timestamp := d * ns_per_day.

(** [pd.isna] / [pd.notna] *)
Definition isna {A} (x : option A) : bool :=
  match x with None => true | Some _ => false end.
Definition notna {A} (x : option A) : bool := negb (isna x).

(** Comparisons of a possibly missing timestamp with a timestamp: every
    comparison with [NaT] is false. *)
Definition lt (x : option Timestamp) (t : Timestamp) : bool :=
  match x with Some a => bool_decide (a < t) | None => false end.
Definition ge (x : option Timestamp) (t : Timestamp) : bool :=
  match x with Some a => bool_decide (t ≤ a) | None => false end.
Definition le (x : option Timestamp) (t : Timestamp) : bool :=
  match x with Some a => bool_decide (a ≤ t) | None => false end.

(** [(x - t).dt.days <= n]: the difference with [NaT] is [NaT], its
    [.days] is [NaN], and [NaN <= n] is false. *)
Definition days_until_le (x : option Timestamp) (t : Timestamp) (n : Z) : bool :=
  match x with Some a => bool_decide (days (a - t) ≤ n) | None => false end.

End Pd.

(** ** Python string operations used by the program *)

Module Py.

Definition dash : ascii := "-"%char.

(** [s.split('-')] on the list of characters; the result is never empty. *)
Fixpoint split_dash_aux (cur : list ascii) (s : list ascii) : list (list ascii) :=
  match s with
  | [] => [reverse cur]
  | c :: rest =>
      if decide (c = dash) then reverse cur :: split_dash_aux [] rest
      else split_dash_aux (c :: cur) rest
  end.

Definition split_dash (s : string) : list string :=
  string_of_list_ascii <$> split_dash_aux [] (list_ascii_of_string s).

(** ['-'.join(parts)] *)
Fixpoint join_dash (parts : list string) : string :=
  match parts with
  | [] => ""
  | [p] => p
  | p :: rest => p +:+ "-" +:+ join_dash rest
  end.

(** [parts[-1]] of a non-empty list. *)
Definition last_part (parts : list string) : string := default "" (last parts).

(** *** [int]

    Python reads a [str] as a sequence of code points; the strings of the
    model are their UTF-8 bytes.  [code_points] decodes them: one to four
    bytes for each code point, in the shortest form; [None] for bytes that
    are the encoding of no text. *)
Definition continuation (c : ascii) : option N :=
  let n := N_of_ascii c in
  if (128 <=? n)%N && (n <? 192)%N then Some (n - 128)%N else None.

Fixpoint code_points (s : list ascii) : option (list N) :=
  match s with
  | [] => Some []
  | c :: rest =>
      let n := N_of_ascii c in
      if (n <? 128)%N then cons n <$> code_points rest
      else if (n <? 192)%N then None
      else if (n <? 224)%N then
        match rest with
        | c1 :: rest =>
            match continuation c1 with
            | Some x1 =>
                let cp := ((n - 192) * 64 + x1)%N in
                if (128 <=? cp)%N then cons cp <$> code_points rest else None
            | None => None
            end
        | _ => None
        end
      else if (n <? 240)%N then
        match rest with
        | c1 :: c2 :: rest =>
            match continuation c1, continuation c2 with
            | Some x1, Some x2 =>
                let cp := (((n - 224) * 64 + x1) * 64 + x2)%N in
                if (2048 <=? cp)%N && negb ((55296 <=? cp)%N && (cp <? 57344)%N)
                then cons cp <$> code_points rest else None
            | _, _ => None
            end
        | _ => None
        end
      else if (n <? 248)%N then
        match rest with
        | c1 :: c2 :: c3 :: rest =>
            match continuation c1, continuation c2, continuation c3 with
            | Some x1, Some x2, Some x3 =>
                let cp := ((((n - 240) * 64 + x1) * 64 + x2) * 64 + x3)%N in
                if (65536 <=? cp)%N && (cp <? 1114112)%N
                then cons cp <$> code_points rest else None
            | _, _, _ => None
            end
        | _ => None
        end
      else None
  end.

(** The characters beyond ASCII that [int] takes for white space: NEL,
    NO-BREAK SPACE, OGHAM SPACE MARK, EN QUAD to HAIR SPACE, LINE and
    PARAGRAPH SEPARATOR, NARROW NO-BREAK SPACE, MEDIUM MATHEMATICAL SPACE and
    IDEOGRAPHIC SPACE. *)
Definition unicode_space (cp : N) : bool :=
  bool_decide (cp ∈ [133; 160; 5760; 8232; 8233; 8239; 8287; 12288]%N)
  || (8192 <=? cp)%N && (cp <=? 8202)%N.

(** The decimal digits beyond ASCII come in runs of ten, zero to nine; these
    are the code points of the zeros (Unicode 14, the character database of
    CPython 3.11): Arabic-Indic U+0660, Extended Arabic-Indic U+06F0, NKo
    U+07C0, Devanagari U+0966, ..., Segmented digits U+1FBF0. *)
Definition decimal_zeros : list N :=
  [ 1632; 1776; 1984; 2406; 2534; 2662; 2790; 2918; 3046; 3174; 3302; 3430;
    3558; 3664; 3792; 3872; 4160; 4240; 6112; 6160; 6470; 6608; 6784; 6800;
    6992; 7088; 7232; 7248; 42528; 43216; 43264; 43472; 43504; 43600; 44016;
    65296; 66720; 68912; 69734; 69872; 69942; 70096; 70384; 70736; 70864;
    71248; 71360; 71472; 71904; 72016; 72784; 73040; 73120; 92768; 92864;
    93008; 120782; 120792; 120802; 120812; 120822; 123200; 123632; 125264;
    130032 ]%N.

Definition unicode_decimal (cp : N) : option N :=
  (λ zero, cp - zero)%N
    <$> find (λ zero, (zero <=? cp)%N && (cp <? zero + 10)%N) decimal_zeros.

(** What [int] parses is ASCII text: an ASCII character stands for itself,
    white space beyond ASCII for a space, a decimal digit of any script for
    the ASCII digit of its value; any other character makes the text
    unparseable, as a question mark does. *)
Definition ascii_of_code_point (cp : N) : ascii :=
  if (cp <? 128)%N then ascii_of_N cp
  else if unicode_space cp then " "%char
  else match unicode_decimal cp with
       | Some d => ascii_of_N (48 + d)
       | None => "?"%char
       end.

(** White space stripped from both ends of the ASCII text: space, tab,
    newline, vertical tab, form feed, carriage return. *)
Definition is_space (c : ascii) : bool :=
  let n := nat_of_ascii c in
  bool_decide (n = 32%nat) || (bool_decide (9 ≤ n)%nat && bool_decide (n ≤ 13)%nat).

Definition digit_value (c : ascii) : option Z :=
  let n := Z.of_nat (nat_of_ascii c) in
  if bool_decide (48 ≤ n) && bool_decide (n ≤ 57) then Some (n - 48) else None.

Fixpoint lstrip (s : list ascii) : list ascii :=
  match s with
  | c :: rest => if is_space c then lstrip rest else s
  | [] => []
  end.

Definition strip (s : list ascii) : list ascii :=
  reverse (lstrip (reverse (lstrip s))).

(** The digits of a decimal literal: a digit, then digits each optionally
    preceded by one underscore.  [acc] is the value read so far and
    [after_digit] tells whether the previous character was a digit. *)
Fixpoint digits (acc : Z) (after_digit : bool) (s : list ascii) : option Z :=
  match s with
  | [] => if after_digit then Some acc else None
  | c :: rest =>
      match digit_value c with
      | Some d => digits (10 * acc + d) true rest
      | None =>
          if decide (c = "_"%char) then
            if after_digit then digits acc false rest else None
          else None
      end
  end.

(** The number written in ASCII text: white space, an optional sign, the
    digits, white space. *)
Definition int_of_ascii (s : list ascii) : option Z :=
  match strip s with
  | c :: rest =>
      if decide (c = "+"%char) then digits 0 false rest
      else if decide (c = "-"%char) then Z.opp <$> digits 0 false rest
      else digits 0 false (c :: rest)
  | [] => None
  end.

(** [int(s)] in base ten; [None] stands for [ValueError].

    The interpreter refuses a conversion between text and number of more
    than [max_str_digits] digits, 4300 unless it is configured otherwise;
    [int] and [format_03d] are the conversions themselves, which agree with
    the interpreter's on every text and number within that limit. *)
Definition int (s : string) : option Z :=
  match code_points (list_ascii_of_string s) with
  | Some cps => int_of_ascii (ascii_of_code_point <$> cps)
  | None => None
  end.


(** [f"{n:03d}"]: decimal, padded with zeros on the left to width three
    (the sign, if any, counts in the width and comes first). *)
Definition zfill (width : nat) (s : string) : string :=
  string_of_list_ascii (replicate (width - String.length s) "0"%char) +:+ s.

Definition format_03d (n : Z) : string :=
  if bool_decide (n < 0) then "-" +:+ zfill 2 (pretty (Z.abs n))
  else zfill 3 (pretty n).

(** [f"{n:02d}"] and [f"{n:04d}"] for non-negative [n], used by
    [date.isoformat]. *)
Definition format_0d (width : nat) (n : Z) : string := zfill width (pretty n).

(** [str(d)] for a [datetime.date] given as a day count: the ISO form
    [YYYY-MM-DD] of the proleptic Gregorian calendar. *)
Definition civil_of_days (z : Z) : Z * Z * Z :=
  let z := z + 719468 in
  let era := z / 146097 in
  let doe := z - era * 146097 in
  let yoe := (doe - doe / 1460 + doe / 36524 - doe / 146096) / 365 in
  let y := yoe + era * 400 in
  let doy := doe - (365 * yoe + yoe / 4 - yoe / 100) in
  let mp := (5 * doy + 2) / 153 in
  let d := doy - (153 * mp + 2) / 5 + 1 in
  let m := if bool_decide (mp < 10) then mp + 3 else mp - 9 in
  (if bool_decide (m ≤ 2) then y + 1 else y, m, d).

Definition str_of_date (d : Pd.date) : string :=
  let '(y, m, dd) := civil_of_days d in
  format_0d 4 y +:+ "-" +:+ format_0d 2 m +:+ "-" +:+ format_0d 2 dd.

(** Truth value of a string: non-empty. *)
Definition truthy (s : string) : bool := negb (bool_decide (s = "")).

End Py.

(** ** Static reference data *)

Definition CENTERS : list (string * string) :=
  [ ("الخلاوية", "KHL-PHC"); ("جبل القهر", "GQH-PHC"); ("مقزع", "MQZ-PHC");
    ("القوام", "QWM-PHC"); ("الجبل الأسود", "BLM-PHC"); ("السادة", "SAD-PHC");
    ("بيش الشمالي", "NBS-PHC"); ("قرية بيش", "VBS-PHC"); ("المحلة", "MHL-PHC");
    ("العشة", "ASH-PHC"); ("أبو السداد", "ASD-PHC"); ("العالية", "ALA-PHC");
    ("السلامة", "SAL-PHC"); ("مسلية", "MSL-PHC"); ("عتود", "ATD-PHC");
    ("الفطيحة", "FTH-PHC"); ("منشبة", "MNS-PHC"); ("قايم الدش", "QDS-PHC");
    ("المطعن", "MTN-PHC"); ("الحقو", "HAQ-PHC"); ("الريث", "RYT-PHC");
    ("الشقيق", "SHQ-PHC"); ("الدرب", "DRB-PHC"); ("بيش الجنوبي", "SBS-PHC");
    ("عمود", "AMD-PHC") ].

(** [{code: name for name, code in CENTERS}]: entries are written in list
    order, a later one replacing an earlier one with the same key. *)
Definition CENTERS_DICT : gmap string string :=
  foldl (λ d '(name, code), <[code := name]> d) ∅ CENTERS.

(** [{name: code for name, code in CENTERS}] *)
Definition CENTERS_DICT_REV : gmap string string :=
  foldl (λ d '(name, code), <[name := code]> d) ∅ CENTERS.

(** ** Device records *)

(** The status and icon literals of [calculate_maintenance_status], and the
    device-status literals. *)
Definition Undetermined : string := "غير محدد".
Definition Overdue : string := "متأخر".
Definition Urgent : string := "عاجل".
Definition Upcoming : string := "قريب".
Definition Good : string := "جيد".

Definition icon_white : string := "⚪".
Definition icon_red : string := "🔴".
Definition icon_orange : string := "🟠".
Definition icon_yellow : string := "🟡".
Definition icon_green : string := "🟢".

Definition Working : string := "عامل".
Definition Broken : string := "معطل".
Definition UnderMaintenance : string := "تحت الصيانة".

(** One row of the data frame, a field per column. *)
Record Row := mkRow {
  Asset_ID : string;
  Scientific_Department : option string;
  Scientific_Equipment_Name : option string;
  Manufacturer : option string;
  Model : option string;
  Serial_No : option string;
  PPM_Done : option string;
  Installation_Date : option Pd.Timestamp;
  Status : option string;
  Center_Code : option string;
  Center_Name : option string;
  Last_Maintenance : option Pd.Timestamp;
  Next_Maintenance : option Pd.Timestamp;
  Maintenance_Interval_Days : Z;
  Device_Status : string;
  Priority : string;
  Notes : option string
}.

Abbreviation DataFrame := (list Row).

#[global] Instance Row_eq_dec : EqDecision Row.
Proof. solve_decision. Defined.

(** Writes to one column of a row. *)
Definition set_Center (code name : option string) (r : Row) : Row :=
  mkRow (Asset_ID r) (Scientific_Department r) (Scientific_Equipment_Name r)
    (Manufacturer r) (Model r) (Serial_No r) (PPM_Done r) (Installation_Date r)
    (Status r) code name (Last_Maintenance r) (Next_Maintenance r)
    (Maintenance_Interval_Days r) (Device_Status r) (Priority r) (Notes r).

Definition set_Last_Maintenance (v : option Pd.Timestamp) (r : Row) : Row :=
  mkRow (Asset_ID r) (Scientific_Department r) (Scientific_Equipment_Name r)
    (Manufacturer r) (Model r) (Serial_No r) (PPM_Done r) (Installation_Date r)
    (Status r) (Center_Code r) (Center_Name r) v (Next_Maintenance r)
    (Maintenance_Interval_Days r) (Device_Status r) (Priority r) (Notes r).

Definition set_Next_Maintenance (v : option Pd.Timestamp) (r : Row) : Row :=
  mkRow (Asset_ID r) (Scientific_Department r) (Scientific_Equipment_Name r)
    (Manufacturer r) (Model r) (Serial_No r) (PPM_Done r) (Installation_Date r)
    (Status r) (Center_Code r) (Center_Name r) (Last_Maintenance r) v
    (Maintenance_Interval_Days r) (Device_Status r) (Priority r) (Notes r).

Definition set_Maintenance_Interval_Days (v : Z) (r : Row) : Row :=
  mkRow (Asset_ID r) (Scientific_Department r) (Scientific_Equipment_Name r)
    (Manufacturer r) (Model r) (Serial_No r) (PPM_Done r) (Installation_Date r)
    (Status r) (Center_Code r) (Center_Name r) (Last_Maintenance r)
    (Next_Maintenance r) v (Device_Status r) (Priority r) (Notes r).

Definition set_Device_Status (v : string) (r : Row) : Row :=
  mkRow (Asset_ID r) (Scientific_Department r) (Scientific_Equipment_Name r)
    (Manufacturer r) (Model r) (Serial_No r) (PPM_Done r) (Installation_Date r)
    (Status r) (Center_Code r) (Center_Name r) (Last_Maintenance r)
    (Next_Maintenance r) (Maintenance_Interval_Days r) v (Priority r) (Notes r).

Definition set_Notes (v : option string) (r : Row) : Row :=
  mkRow (Asset_ID r) (Scientific_Department r) (Scientific_Equipment_Name r)
    (Manufacturer r) (Model r) (Serial_No r) (PPM_Done r) (Installation_Date r)
    (Status r) (Center_Code r) (Center_Name r) (Last_Maintenance r)
    (Next_Maintenance r) (Maintenance_Interval_Days r) (Device_Status r)
    (Priority r) v.

Definition set_Scientific_Equipment_Name (v : option string) (r : Row) : Row :=
  mkRow (Asset_ID r) (Scientific_Department r) v
    (Manufacturer r) (Model r) (Serial_No r) (PPM_Done r) (Installation_Date r)
    (Status r) (Center_Code r) (Center_Name r) (Last_Maintenance r)
    (Next_Maintenance r) (Maintenance_Interval_Days r) (Device_Status r)
    (Priority r) (Notes r).

Definition set_Manufacturer (v : option string) (r : Row) : Row :=
  mkRow (Asset_ID r) (Scientific_Department r) (Scientific_Equipment_Name r)
    v (Model r) (Serial_No r) (PPM_Done r) (Installation_Date r)
    (Status r) (Center_Code r) (Center_Name r) (Last_Maintenance r)
    (Next_Maintenance r) (Maintenance_Interval_Days r) (Device_Status r)
    (Priority r) (Notes r).

Definition set_Model (v : option string) (r : Row) : Row :=
  mkRow (Asset_ID r) (Scientific_Department r) (Scientific_Equipment_Name r)
    (Manufacturer r) v (Serial_No r) (PPM_Done r) (Installation_Date r)
    (Status r) (Center_Code r) (Center_Name r) (Last_Maintenance r)
    (Next_Maintenance r) (Maintenance_Interval_Days r) (Device_Status r)
    (Priority r) (Notes r).

Definition set_Priority (v : string) (r : Row) : Row :=
  mkRow (Asset_ID r) (Scientific_Department r) (Scientific_Equipment_Name r)
    (Manufacturer r) (Model r) (Serial_No r) (PPM_Done r) (Installation_Date r)
    (Status r) (Center_Code r) (Center_Name r) (Last_Maintenance r)
    (Next_Maintenance r) (Maintenance_Interval_Days r) (Device_Status r)
    v (Notes r).

(** [df[col] == v] on a column that may hold [NaN]: [NaN] equals nothing. *)
Definition col_eq (x : option string) (v : string) : bool := bool_decide (x = Some v).

(** [df[col].isin(values)] *)
Definition isin (x : option string) (values : list string) : bool :=
  match x with Some v => bool_decide (v ∈ values) | None => false end.

(** Positions of the rows selected by a mask, in frame order:
    [df[mask].index]. *)
Definition mask_index (mask : Row → bool) (df : DataFrame) : list nat :=
  (fst <$> filter (λ p, mask (snd p) = true) (imap (λ i r, (i, r)) df)).

(** The first two dash-separated parts of the asset id, joined again
    ([load_data]: [str.split('-').str[0:2].str.join('-')]). *)
Definition center_code_of (asset_id : string) : string :=
  Py.join_dash (take 2 (Py.split_dash asset_id)).

(** ** The session and its external collaborators *)

(** What the Streamlit page shows. *)
Inductive Message :=
| Error (text : string)
| Success (text : string).

(** Python exceptions.  [Exception] stands for any exception caught by
    [except Exception]; Streamlit's rerun signal derives from
    [BaseException] and passes through such a handler. *)
Inductive Exn :=
| Exception (msg : string)
| RerunException.

(** The spreadsheet reader and writer.  [to_excel] either succeeds or raises
    an exception with a message, and may change the disk either way;
    [read_excel] parses a path or an uploaded file. *)
Class External := {
  Disk : Type;
  Upload : Type;
  to_excel : DataFrame → string → Disk → option string * Disk;
  read_excel : string → Disk → string + DataFrame;
  read_excel_upload : Upload → string + DataFrame
}.

Definition data_file : string := "/mnt/user-data/uploads/All_Devices_Merged.xlsx".

(** One call of a function decorated with [@st.cache_data], as the cache
    keeps it: the value the call returned and the elements it showed. *)
Record CachedCall := mkCachedCall {
  cached_value : option DataFrame;
  cached_elements : list Message
}.

(** The cache of [load_data], keyed by the function's argument.  It belongs
    to the server process: it outlives reruns and sessions, and the program
    never clears it. *)
Abbreviation Cache := (gmap string CachedCall).

(** Form inputs of the add-device tab. *)
Record DeviceForm := mkDeviceForm {
  form_center : string;
  form_equipment_name : string;
  form_manufacturer : string;
  form_model : string;
  form_department : string;
  form_serial_no : string;
  form_installation_date : Pd.date;
  form_device_status : string;
  form_maintenance_interval : Z;
  form_priority : string;
  form_notes : string
}.

(** Form inputs of the maintenance-log tab. *)
Record MaintenanceForm := mkMaintenanceForm {
  maintenance_date : Pd.date;
  maintenance_type : string;
  technician : string;
  maintenance_notes : string;
  parts_replaced : string;
  device_status_after : string;
  next_maintenance_interval : Z
}.

(** [df[mask]] for a boolean mask computed row by row. *)
Definition select (mask : Row → bool) (df : DataFrame) : DataFrame :=
  filter (λ r, Is_true (mask r)) df.

(** Order used by [sort_values('Next_Maintenance')]: ascending, missing
    values last. *)
Definition Next_le (a b : Row) : Prop :=
  match Next_Maintenance a, Next_Maintenance b with
  | Some x, Some y => x ≤ y
  | None, Some _ => False
  | _, None => True
  end.

#[global] Instance Next_le_dec a b : Decision (Next_le a b).
Proof. unfold Next_le; destruct (Next_Maintenance a), (Next_Maintenance b); apply _. Defined.

(** The three filters at the top of the dashboard; an empty selection
    filters nothing. *)
Definition apply_filters (selected_centers selected_departments status_filter : list string)
    (df : DataFrame) : DataFrame :=
  let df1 := match selected_centers with
             | [] => df
             | _ => select (λ r, isin (Center_Name r) selected_centers) df
             end in
  let df2 := match selected_departments with
             | [] => df1
             | _ => select (λ r, isin (Scientific_Department r) selected_departments) df1
             end in
  match status_filter with
  | [] => df2
  | _ => select (λ r, bool_decide (Device_Status r ∈ status_filter)) df2
  end.

(** The scan of the add-device handler: the largest number found after the
    last dash of the given asset ids, starting from zero; an id whose tail
    does not parse is skipped ([except: pass]). *)
Definition max_asset_number (existing_ids : list string) : Z :=
  foldl (λ max_num asset_id,
           match Py.int (Py.last_part (Py.split_dash asset_id)) with
           | Some num => Z.max max_num num
           | None => max_num
           end) 0 existing_ids.

Definition existing_ids (df : DataFrame) (center_code : string) : list string :=
  Asset_ID <$> select (λ r, col_eq (Center_Code r) center_code) df.

Definition new_asset_id (df : DataFrame) (center_code : string) : string :=
  center_code +:+ "-" +:+ Py.format_03d (max_asset_number (existing_ids df center_code) + 1).

(** What the dashboard renders. *)
Record Dashboard := mkDashboard {
  total : nat;
  working : nat;
  overdue : nat;
  urgent : nat;
  broken : nat;
  maintenance_status : list string;
  urgent_devices : DataFrame;
  urgent_table : DataFrame
}.

(** Form inputs of the edit tab. *)
Record EditForm := mkEditForm {
  edit_equipment_name : string;
  edit_manufacturer : string;
  edit_model : string;
  edit_device_status : string;
  edit_priority : string;
  edit_maintenance_interval : Z;
  edit_notes : string
}.

(** The options of the schedule's time-range box. *)
Definition range_overdue : string := "متأخر".
Definition range_week : string := "خلال أسبوع".
Definition range_month : string := "خلال شهر".
Definition range_quarter : string := "خلال 3 شهور".
Definition all_option : string := "الكل".

(** The time-range filter of the schedule, an [if]/[elif] chain on the
    chosen option; any other option filters nothing. *)
Definition in_time_range (time_range : string) (today : Pd.Timestamp) (r : Row) : bool :=
  if bool_decide (time_range = range_overdue) then Pd.lt (Next_Maintenance r) today
  else if bool_decide (time_range = range_week) then
    Pd.ge (Next_Maintenance r) today
    && Pd.le (Next_Maintenance r) (today + Pd.timedelta 7)
  else if bool_decide (time_range = range_month) then
    Pd.ge (Next_Maintenance r) today
    && Pd.le (Next_Maintenance r) (today + Pd.timedelta 30)
  else if bool_decide (time_range = range_quarter) then
    Pd.ge (Next_Maintenance r) today
    && Pd.le (Next_Maintenance r) (today + Pd.timedelta 90)
  else true.

(** Order of [sort_values(['Priority', 'Next_Maintenance'],
    ascending=[False, True])]: priority descending as strings, then the
    next-maintenance date ascending. *)
Definition schedule_le (a b : Row) : Prop :=
  match String.compare (Priority a) (Priority b) with
  | Gt => True
  | Lt => False
  | Eq => Next_le a b
  end.

#[global] Instance schedule_le_dec a b : Decision (schedule_le a b).
Proof. unfold schedule_le; destruct (String.compare _ _); apply _. Defined.

(** A line of the schedule table: the row with its two computed columns. *)
Record ScheduleRow := mkScheduleRow {
  schedule_row : Row;
  Status_Icon : string;
  Days_Until : option Z
}.

(** The three counters of the statistics tab. *)
Record MaintenanceStats := mkMaintenanceStats {
  completed : nat;
  pending : nat;
  upcoming : nat
}.

Section Handlers.
Context `{External}.

Record World := mkWorld {
  clock : Pd.Timestamp;
  session_df : DataFrame;
  disk : Disk;
  ui : list Message
}.

(** Computations of the page: they read and write the world and either
    return a value or raise. *)
Definition App (A : Type) : Type := World → (Exn + A) * World.

Definition ret {A} (a : A) : App A := λ w, (inr a, w).

Definition bind {A B} (m : App A) (k : A → App B) : App B :=
  λ w, match m w with
       | (inr a, w') => k a w'
       | (inl e, w') => (inl e, w')
       end.

Definition raise {A} (e : Exn) : App A := λ w, (inl e, w).

(** [try: body except Exception as e: handler(e)] *)
Definition try_except {A} (body : App A) (handler : string → App A) : App A :=
  λ w, match body w with
       | (inl (Exception msg), w') => handler msg w'
       | r => r
       end.

Notation "'do' x ← c ;> k" := (bind c (λ x, k))
  (at level 10, x name, c at level 100, k at level 200).
Notation "'run' c ;> k" := (bind c (λ _, k))
  (at level 10, c at level 100, k at level 200).

Fixpoint for_each {A} (l : list A) (body : A → App unit) : App unit :=
  match l with
  | [] => ret ()
  | x :: rest => run body x ;> for_each rest body
  end.

Fixpoint map_rows {B} (f : Row → App B) (df : DataFrame) : App (list B) :=
  match df with
  | [] => ret []
  | r :: rest => do b ← f r ;> do bs ← map_rows f rest ;> ret (b :: bs)
  end.

(** [pd.Timestamp.now()]: the reading is the clock of the world, which a run
    of a handler does not advance. *)
Definition Timestamp_now : App Pd.Timestamp := λ w, (inr (clock w), w).

(** [st.session_state.df] read and rebound. *)
Definition get_df : App DataFrame := λ w, (inr (session_df w), w).
Definition put_df (df : DataFrame) : App unit :=
  λ w, (inr (), mkWorld (clock w) df (disk w) (ui w)).

(** [st.session_state.df.loc[idx, col] = v], as a write [f] to one column
    of the row at [idx]. *)
Definition loc_set (idx : nat) (f : Row → Row) : App unit :=
  λ w, (inr (), mkWorld (clock w) (alter f idx (session_df w)) (disk w) (ui w)).

Definition show (m : Message) : App unit :=
  λ w, (inr (), mkWorld (clock w) (session_df w) (disk w) (ui w ++ [m])).
Definition st_error (text : string) : App unit := show (Error text).
Definition st_success (text : string) : App unit := show (Success text).

(** [st.rerun()] leaves the running script through its control signal. *)
Definition st_rerun : App unit := raise RerunException.

(** [df.to_excel(file_path, index=False)] *)
Definition df_to_excel (df : DataFrame) (file_path : string) : App unit :=
  λ w, let '(r, d) := to_excel df file_path (disk w) in
       (match r with Some msg => inl (Exception msg) | None => inr () end,
        mkWorld (clock w) (session_df w) d (ui w)).

(** [pd.read_excel] of a path and of an uploaded file. *)
Definition pd_read_excel (file_path : string) : App DataFrame :=
  λ w, (match read_excel file_path (disk w) with
        | inl msg => inl (Exception msg)
        | inr df => inr df
        end, w).
Definition pd_read_upload (uploaded : Upload) : App DataFrame :=
  match read_excel_upload uploaded with
  | inl msg => raise (Exception msg)
  | inr df => ret df
  end.

(** *** [load_data]

    The typing and defaulting of the columns other than the two derived
    center columns is folded into the reader, which yields rows of type
    [Row]. *)
Definition with_center_columns (r : Row) : Row :=
  let code := center_code_of (Asset_ID r) in
  set_Center (Some code) (CENTERS_DICT !! code) r.

(** The body of the function, as it runs when the cache has no entry. *)
Definition load_data_body (file_path : string) : App (option DataFrame) :=
  try_except
    (do df ← pd_read_excel file_path ;>
     ret (Some (with_center_columns <$> df)))
    (λ e, run st_error ("خطأ في تحميل البيانات: " +:+ e) ;> ret None).

(** The function under its decorator [@st.cache_data].  A call whose
    argument has an entry in the cache does not run the body: it shows the
    entry's elements again and returns the entry's value.  Any other call
    runs the body and, if the body returns, stores the value and the
    elements the body showed.  The function takes and returns the cache,
    which is no part of the session. *)
Definition load_data (file_path : string) (cache : Cache)
    : App (option DataFrame * Cache) :=
  match cache !! file_path with
  | Some call =>
      run for_each (cached_elements call) show ;>
      ret (cached_value call, cache)
  | None =>
      λ w, match load_data_body file_path w with
           | (inr value, w') =>
               let shown := drop (length (ui w)) (ui w') in
               (inr (value, <[file_path := mkCachedCall value shown]> cache), w')
           | (inl e, w') => (inl e, w')
           end
  end.

(** *** [calculate_maintenance_status] *)
Definition calculate_maintenance_status (row : Row) : App (string * string) :=
  do today ← Timestamp_now ;>
  match Next_Maintenance row with
  | None => ret (Undetermined, icon_white)
  | Some next =>
      let days_until := Pd.days (next - today) in
      if bool_decide (days_until < 0) then ret (Overdue, icon_red)
      else if bool_decide (days_until ≤ 7) then ret (Urgent, icon_orange)
      else if bool_decide (days_until ≤ 30) then ret (Upcoming, icon_yellow)
      else ret (Good, icon_green)
  end.

(** *** [save_data] *)
Definition drop_center_columns (df : DataFrame) : DataFrame :=
  set_Center None None <$> df.

Definition save_data (df : DataFrame) (file_path : string) : App bool :=
  try_except
    (run df_to_excel (drop_center_columns df) file_path ;> ret true)
    (λ e, run st_error ("خطأ في حفظ البيانات: " +:+ e) ;> ret false).

(** *** [show_devices_management]: submitting the add-device form *)
Definition new_row (form : DeviceForm) (center_code asset_id : string) : Row :=
  {| Asset_ID := asset_id;
     Scientific_Department := Some (form_department form);
     Scientific_Equipment_Name := Some (form_equipment_name form);
     Manufacturer := Some (form_manufacturer form);
     Model := Some (form_model form);
     Serial_No := Some (form_serial_no form);
     PPM_Done := None;
     Installation_Date := Some (Pd.Timestamp_of_date (form_installation_date form));
     Status := None;
     Center_Code := Some center_code;
     Center_Name := Some (form_center form);
     Last_Maintenance := None;
     Next_Maintenance :=
       Some (Pd.Timestamp_of_date (form_installation_date form)
             + Pd.timedelta (form_maintenance_interval form));
     Maintenance_Interval_Days := form_maintenance_interval form;
     Device_Status := form_device_status form;
     Priority := form_priority form;
     Notes := Some (form_notes form) |}.

Definition add_device (form : DeviceForm) : App unit :=
  do df ← get_df ;>
  if Py.truthy (form_equipment_name form) && Py.truthy (form_center form)
     && Py.truthy (form_department form)
  then
    match CENTERS_DICT_REV !! form_center form with
    | None => raise (Exception "KeyError")
    | Some center_code =>
        let asset_id := new_asset_id df center_code in
        run put_df (df ++ [new_row form center_code asset_id]) ;>
        do df' ← get_df ;>
        do saved ← save_data df' data_file ;>
        if saved then
          run st_success ("✅ تم إضافة الجهاز بنجاح! Asset ID: " +:+ asset_id) ;>
          st_rerun
        else st_error "❌ فشل حفظ البيانات"
    end
  else st_error "⚠️ يرجى ملء جميع الحقول المطلوبة (*)".

(** *** [show_maintenance_schedule]: submitting the maintenance log

    The form is shown only for a selected asset id that is a non-empty
    string ([if asset_id:]). *)
Definition new_note (form : MaintenanceForm) : string :=
  String "010"%char
    ("[" +:+ Py.str_of_date (maintenance_date form) +:+ "] "
     +:+ maintenance_type form +:+ " - " +:+ technician form +:+ ": "
     +:+ maintenance_notes form).

Definition log_maintenance (asset_id : string) (form : MaintenanceForm) : App unit :=
  if negb (Py.truthy asset_id) then ret () else
  do df ← get_df ;>
  match list_find (λ r, Asset_ID r = asset_id) df with
  | None => raise (Exception "IndexError")
  | Some (idx, device) =>
      let done := Pd.Timestamp_of_date (maintenance_date form) in
      run loc_set idx (set_Last_Maintenance (Some done)) ;>
      run loc_set idx (set_Next_Maintenance
                     (Some (done + Pd.timedelta (next_maintenance_interval form)))) ;>
      run loc_set idx (set_Device_Status (device_status_after form)) ;>
      run loc_set idx (set_Maintenance_Interval_Days (next_maintenance_interval form)) ;>
      let current_notes := default "" (Notes device) in
      run loc_set idx (set_Notes (Some (current_notes +:+ new_note form))) ;>
      do df' ← get_df ;>
      do saved ← save_data df' data_file ;>
      if saved then
        run st_success ("✅ تم تسجيل الصيانة بنجاح! الصيانة القادمة: "
                    +:+ Py.str_of_date (maintenance_date form
                                        + next_maintenance_interval form)) ;>
        st_rerun
      else st_error "❌ فشل حفظ البيانات"
  end.

(** *** [show_settings]: applying an interval to an equipment type

    The button is shown only for a selected equipment type that is a
    non-empty string ([if selected_equipment:]). *)
Definition recompute_next (new_interval : Z) (idx : nat) : App unit :=
  do df ← get_df ;>
  match df !! idx with
  | None => raise (Exception "KeyError")
  | Some r =>
      match Last_Maintenance r with
      | Some last_maint =>
          loc_set idx (set_Next_Maintenance
                         (Some (last_maint + Pd.timedelta new_interval)))
      | None => ret ()
      end
  end.

Definition apply_interval (selected_equipment : string) (new_interval : Z) : App unit :=
  if negb (Py.truthy selected_equipment) then ret () else
  do df ← get_df ;>
  let mask := λ r, col_eq (Scientific_Equipment_Name r) selected_equipment in
  let devices := select mask df in
  run put_df ((λ r, if mask r then set_Maintenance_Interval_Days new_interval r else r) <$> df) ;>
  do df1 ← get_df ;>
  run for_each (mask_index mask df1) (recompute_next new_interval) ;>
  do df2 ← get_df ;>
  do saved ← save_data df2 data_file ;>
  if saved then
    run st_success ("✅ تم تحديث فترة الصيانة لـ " +:+ pretty (length devices) +:+ " جهاز") ;>
    st_rerun
  else ret ().

(** *** [show_settings]: restoring a backup *)
Definition restore_backup (uploaded_backup : Upload) : App unit :=
  try_except
    (do restored_df ← pd_read_upload uploaded_backup ;>
     run put_df restored_df ;>
     run st_success "✅ تم استعادة البيانات بنجاح!" ;>
     st_rerun)
    (λ e, st_error ("❌ خطأ في استعادة البيانات: " +:+ e)).

(** *** [show_dashboard] *)
Definition show_dashboard (selected_centers selected_departments status_filter : list string)
    : App Dashboard :=
  do df ← get_df ;>
  let df_filtered := apply_filters selected_centers selected_departments status_filter df in
  do now_overdue ← Timestamp_now ;>
  let overdue := length (select (λ r, Pd.lt (Next_Maintenance r) now_overdue
                                      && Pd.notna (Next_Maintenance r)) df_filtered) in
  do now_days ← Timestamp_now ;>
  do now_ge ← Timestamp_now ;>
  let urgent := length (select (λ r, Pd.days_until_le (Next_Maintenance r) now_days 7
                                     && Pd.ge (Next_Maintenance r) now_ge
                                     && Pd.notna (Next_Maintenance r)) df_filtered) in
  let broken := length (select (λ r, bool_decide (Device_Status r = Broken)) df_filtered) in
  do statuses ← map_rows (λ row, do s ← calculate_maintenance_status row ;> ret (fst s))
                  df_filtered ;>
  do now_table ← Timestamp_now ;>
  let urgent_devices :=
    merge_sort Next_le
      (select (λ r, Pd.days_until_le (Next_Maintenance r) now_table 7
                    && Pd.notna (Next_Maintenance r)) df_filtered) in
  ret {| total := length df_filtered;
         working := length (select (λ r, bool_decide (Device_Status r = Working)) df_filtered);
         overdue := overdue;
         urgent := urgent;
         broken := broken;
         maintenance_status := statuses;
         urgent_devices := urgent_devices;
         urgent_table := take 10 urgent_devices |}.

(** *** [show_devices_management]: saving an edit, deleting a device

    The edit form is shown only for a selected asset id that is a non-empty
    string, and reads the device's row first ([.iloc[0]]). *)
Definition update_device (asset_id : string) (form : EditForm) : App unit :=
  if negb (Py.truthy asset_id) then ret () else
  do df ← get_df ;>
  match list_find (λ r, Asset_ID r = asset_id) df with
  | None => raise (Exception "IndexError")
  | Some (idx, _) =>
      run loc_set idx (set_Scientific_Equipment_Name (Some (edit_equipment_name form))) ;>
      run loc_set idx (set_Manufacturer (Some (edit_manufacturer form))) ;>
      run loc_set idx (set_Model (Some (edit_model form))) ;>
      run loc_set idx (set_Device_Status (edit_device_status form)) ;>
      run loc_set idx (set_Priority (edit_priority form)) ;>
      run loc_set idx (set_Maintenance_Interval_Days (edit_maintenance_interval form)) ;>
      run loc_set idx (set_Notes (Some (edit_notes form))) ;>
      do df' ← get_df ;>
      do saved ← save_data df' data_file ;>
      if saved then
        run st_success "✅ تم حفظ التعديلات بنجاح!" ;>
        st_rerun
      else st_error "❌ فشل حفظ التعديلات"
  end.

(** [confirmed] is the value of the confirmation checkbox. *)
Definition delete_device (asset_id : string) (confirmed : bool) : App unit :=
  if negb (Py.truthy asset_id) then ret () else
  do df ← get_df ;>
  match list_find (λ r, Asset_ID r = asset_id) df with
  | None => raise (Exception "IndexError")
  | Some _ =>
      if confirmed then
        run put_df (filter (λ r, Asset_ID r ≠ asset_id) df) ;>
        do df' ← get_df ;>
        do saved ← save_data df' data_file ;>
        if saved then
          run st_success "✅ تم حذف الجهاز بنجاح!" ;>
          st_rerun
        else st_error "❌ فشل حذف الجهاز"
      else ret ()
  end.

(** *** [export_maintenance_report]: the exported table

    The rows of the chosen center, or all rows without a center, each with
    its maintenance status; the workbook styling is left out. *)
Definition export_maintenance_report (df : DataFrame) (center : option string)
    : App (list (Row * string)) :=
  let df_export :=
    match center with
    | Some c => if Py.truthy c then select (λ r, col_eq (Center_Name r) c) df else df
    | None => df
    end in
  map_rows (λ row, do s ← calculate_maintenance_status row ;> ret (row, fst s)) df_export.

(** *** [show_maintenance_schedule]: the schedule table *)
Definition show_schedule (time_range : string) (priority_filter : list string)
    (center_filter : string) : App (list ScheduleRow) :=
  do df ← get_df ;>
  let df_schedule := select (λ r, Pd.notna (Next_Maintenance r)) df in
  do today ← Timestamp_now ;>
  let df_schedule := select (in_time_range time_range today) df_schedule in
  let df_schedule :=
    match priority_filter with
    | [] => df_schedule
    | _ => select (λ r, bool_decide (Priority r ∈ priority_filter)) df_schedule
    end in
  let df_schedule :=
    if bool_decide (center_filter = all_option) then df_schedule
    else select (λ r, col_eq (Center_Name r) center_filter) df_schedule in
  do lines ← map_rows
                (λ row, do s ← calculate_maintenance_status row ;>
                        ret (mkScheduleRow row (snd s)
                               ((λ next, Pd.days (next - today)) <$> Next_Maintenance row)))
                df_schedule ;>
  ret (merge_sort (λ a b, schedule_le (schedule_row a) (schedule_row b)) lines).

(** *** [show_maintenance_schedule]: the statistics tab *)
Definition maintenance_statistics : App MaintenanceStats :=
  do df ← get_df ;>
  let completed := length (select (λ r, Pd.notna (Last_Maintenance r)) df) in
  do now_pending ← Timestamp_now ;>
  let pending := length (select (λ r, Pd.lt (Next_Maintenance r) now_pending
                                      && Pd.notna (Next_Maintenance r)) df) in
  do now_ge ← Timestamp_now ;>
  do now_le ← Timestamp_now ;>
  let upcoming := length (select (λ r, Pd.ge (Next_Maintenance r) now_ge
                                       && Pd.le (Next_Maintenance r)
                                            (now_le + Pd.timedelta 30)
                                       && Pd.notna (Next_Maintenance r)) df) in
  ret (mkMaintenanceStats completed pending upcoming).

End Handlers.


(** ** An in-memory reader and writer

    A disk that maps paths to frames and can be read-only, and uploads that
    either hold a frame or are damaged.  The model is run on it at concrete
    inputs. *)

Module MemDisk.

Record state := mkState {
  files : gmap string DataFrame;
  read_only : bool
}.

Definition write (df : DataFrame) (path : string) (d : state) : option string * state :=
  if read_only d then (Some "Permission denied", d)
  else (None, mkState (<[path := df]> (files d)) false).

Definition read (path : string) (d : state) : string + DataFrame :=
  match files d !! path with
  | Some df => inr df
  | None => inl "No such file or directory"
  end.

Definition parse (uploaded : option DataFrame) : string + DataFrame :=
  match uploaded with
  | Some df => inr df
  | None => inl "File is not a zip file"
  end.

Definition external : External :=
  {| Disk := state; Upload := option DataFrame;
     to_excel := write; read_excel := read; read_excel_upload := parse |}.

Definition empty : state := mkState ∅ false.
Definition locked : state := mkState ∅ true.

End MemDisk.

(** A device with only the fields that matter for scheduling filled in. *)
Definition device (asset_id name : string) (last next : option Pd.Timestamp) : Row :=
  {| Asset_ID := asset_id;
     Scientific_Department := Some "Laboratory";
     Scientific_Equipment_Name := Some name;
     Manufacturer := None; Model := None; Serial_No := None; PPM_Done := None;
     Installation_Date := None; Status := None;
     Center_Code := Some (center_code_of asset_id);
     Center_Name := CENTERS_DICT !! center_code_of asset_id;
     Last_Maintenance := last;
     Next_Maintenance := next;
     Maintenance_Interval_Days := 90;
     Device_Status := Working;
     Priority := "متوسط";
     Notes := None |}.

(** A small session: two devices of one center, the second never
    maintained, on a writable and on a read-only disk; and a maintenance
    log form. *)
Definition example_devices : DataFrame :=
  [ device "KHL-PHC-001" "Centrifuge"
      (Some (Pd.Timestamp_of_date 20300)) (Some (Pd.Timestamp_of_date 20390));
    device "KHL-PHC-002" "Autoclave" None (Some (Pd.Timestamp_of_date 20400)) ].

Definition example_world : @World MemDisk.external :=
  @mkWorld MemDisk.external (Pd.Timestamp_of_date 20395) example_devices MemDisk.empty [].

Definition example_world_locked : @World MemDisk.external :=
  @mkWorld MemDisk.external (Pd.Timestamp_of_date 20395) example_devices MemDisk.locked [].

Definition example_form : MaintenanceForm :=
  {| maintenance_date := 20395;
     maintenance_type := "صيانة دورية";
     technician := "Salem";
     maintenance_notes := "filters replaced";
     parts_replaced := "";
     device_status_after := Working;
     next_maintenance_interval := 14 |}.


Definition example_incomplete_form : DeviceForm :=
  {| form_center := "الخلاوية";
     form_equipment_name := "";
     form_manufacturer := "";
     form_model := "";
     form_department := "Laboratory";
     form_serial_no := "";
     form_installation_date := 20395;
     form_device_status := Working;
     form_maintenance_interval := 90;
     form_priority := "متوسط";
     form_notes := "" |}.

Definition example_edit_form : EditForm :=
  {| edit_equipment_name := "Centrifuge";
     edit_manufacturer := "";
     edit_model := "";
     edit_device_status := Working;
     edit_priority := "متوسط";
     edit_maintenance_interval := 30;
     edit_notes := "" |}.

(** The example session as an interval edit leaves it: the centrifuge has
    interval 30 and still the next date of its old interval of 90 days. *)
Definition example_off_schedule_world : @World MemDisk.external :=
  @mkWorld MemDisk.external (Pd.Timestamp_of_date 20395)
    [ set_Maintenance_Interval_Days 30
        (device "KHL-PHC-001" "Centrifuge"
           (Some (Pd.Timestamp_of_date 20300)) (Some (Pd.Timestamp_of_date 20390)));
      device "KHL-PHC-002" "Autoclave" None (Some (Pd.Timestamp_of_date 20400)) ]
    MemDisk.empty [].


(** A session with one device due at the very instant of the clock, and the
    same session a nanosecond later. *)
Definition example_due_device : Row :=
  device "KHL-PHC-004" "Ventilator" None (Some (Pd.Timestamp_of_date 20400)).

Definition example_due_world : @World MemDisk.external :=
  @mkWorld MemDisk.external (Pd.Timestamp_of_date 20400) [example_due_device]
    MemDisk.empty [].

Definition example_due_world_later : @World MemDisk.external :=
  @mkWorld MemDisk.external (Pd.Timestamp_of_date 20400 + 1) [example_due_device]
    MemDisk.empty [].

(** The cache after [load_data] has read an empty spreadsheet at the data
    file's path. *)
Definition example_cache : Cache := {[ data_file := mkCachedCall (Some []) [] ]}.

Definition example_gap_device : Row :=
  device "KHL-PHC-003" "Incubator" None (Some (Pd.Timestamp_of_date 20402 + 1)).

Definition example_gap_world : @World MemDisk.external :=
  @mkWorld MemDisk.external (Pd.Timestamp_of_date 20395) [example_gap_device]
    MemDisk.empty [].

(** ** Reference descriptions

    The effect each handler is meant to have on one row, and the selections
    of the dashboard, written as plain functions and predicates; the
    properties below compare the handlers with them. *)

(** The row after a maintenance event has been logged on it. *)
Definition logged_row (form : MaintenanceForm) (r : Row) : Row :=
  {| Asset_ID := Asset_ID r;
     Scientific_Department := Scientific_Department r;
     Scientific_Equipment_Name := Scientific_Equipment_Name r;
     Manufacturer := Manufacturer r;
     Model := Model r;
     Serial_No := Serial_No r;
     PPM_Done := PPM_Done r;
     Installation_Date := Installation_Date r;
     Status := Status r;
     Center_Code := Center_Code r;
     Center_Name := Center_Name r;
     Last_Maintenance := Some (Pd.Timestamp_of_date (maintenance_date form));
     Next_Maintenance :=
       Some (Pd.Timestamp_of_date (maintenance_date form)
             + Pd.timedelta (next_maintenance_interval form));
     Maintenance_Interval_Days := next_maintenance_interval form;
     Device_Status := device_status_after form;
     Priority := Priority r;
     Notes := Some (default "" (Notes r) +:+ new_note form) |}.

(** The next-maintenance date of a row re-derived from its last
    maintenance, when it has one. *)
Definition reschedule (new_interval : Z) (r : Row) : Row :=
  match Last_Maintenance r with
  | Some last_maint => set_Next_Maintenance (Some (last_maint + Pd.timedelta new_interval)) r
  | None => r
  end.

(** A row after an interval has been applied to the equipment type
    [selected_equipment]. *)
Definition with_interval (selected_equipment : string) (new_interval : Z) (r : Row) : Row :=
  if col_eq (Scientific_Equipment_Name r) selected_equipment
  then reschedule new_interval (set_Maintenance_Interval_Days new_interval r)
  else r.



(** Shape of a center code: three capital letters followed by [-PHC]. *)
Definition is_capital (c : ascii) : bool :=
  let n := nat_of_ascii c in bool_decide (65 ≤ n)%nat && bool_decide (n ≤ 90)%nat.

Definition is_center_code (code : string) : bool :=
  match list_ascii_of_string code with
  | [a; b; c; d; p; h; k] =>
      is_capital a && is_capital b && is_capital c
      && bool_decide (string_of_list_ascii [d; p; h; k] = "-PHC")
  | _ => false
  end.

(** The row after an edit has been saved on it. *)
Definition edited_row (form : EditForm) (r : Row) : Row :=
  {| Asset_ID := Asset_ID r;
     Scientific_Department := Scientific_Department r;
     Scientific_Equipment_Name := Some (edit_equipment_name form);
     Manufacturer := Some (edit_manufacturer form);
     Model := Some (edit_model form);
     Serial_No := Serial_No r;
     PPM_Done := PPM_Done r;
     Installation_Date := Installation_Date r;
     Status := Status r;
     Center_Code := Center_Code r;
     Center_Name := Center_Name r;
     Last_Maintenance := Last_Maintenance r;
     Next_Maintenance := Next_Maintenance r;
     Maintenance_Interval_Days := edit_maintenance_interval form;
     Device_Status := edit_device_status form;
     Priority := edit_priority form;
     Notes := Some (edit_notes form) |}.

(** A maintained device is on schedule when its next maintenance is its last
    maintenance plus its interval. *)
Definition on_schedule (r : Row) : Prop :=
  ∀ last, Last_Maintenance r = Some last →
    Next_Maintenance r = Some (last + Pd.timedelta (Maintenance_Interval_Days r)).

(** The status pair of a row at clock reading [now]. *)
Definition status_at (now : Pd.Timestamp) (row : Row) : string * string :=
  match Next_Maintenance row with
  | None => (Undetermined, icon_white)
  | Some next =>
      let days_until := Pd.days (next - now) in
      if bool_decide (days_until < 0) then (Overdue, icon_red)
      else if bool_decide (days_until ≤ 7) then (Urgent, icon_orange)
      else if bool_decide (days_until ≤ 30) then (Upcoming, icon_yellow)
      else (Good, icon_green)
  end.

(** How pressing a status label is. *)
Definition severity (label : string) : Z :=
  if bool_decide (label = Overdue) then 3
  else if bool_decide (label = Urgent) then 2
  else if bool_decide (label = Upcoming) then 1
  else 0.

(** Rows of the dashboard's immediate-maintenance table, and rows counted by
    its urgent metric, at clock reading [now]. *)
Definition needs_immediate (now : Pd.Timestamp) (r : Row) : Prop :=
  match Next_Maintenance r with
  | Some next => Pd.days (next - now) ≤ 7
  | None => False
  end.

Definition counted_urgent (now : Pd.Timestamp) (r : Row) : Prop :=
  match Next_Maintenance r with
  | Some next => Pd.days (next - now) ≤ 7 ∧ now ≤ next
  | None => False
  end.

#[global] Instance needs_immediate_dec now r : Decision (needs_immediate now r).
Proof. unfold needs_immediate; destruct (Next_Maintenance r); apply _. Defined.

#[global] Instance counted_urgent_dec now r : Decision (counted_urgent now r).
Proof. unfold counted_urgent; destruct (Next_Maintenance r); apply _. Defined.



(** ** Properties of the status evaluator *)

Lemma days_floor (td : Z) :
  Pd.days td * Pd.ns_per_day ≤ td < (Pd.days td + 1) * Pd.ns_per_day.
Proof.
  unfold Pd.days, Pd.ns_per_day.
  pose proof (Z.div_mod td 86400000000000 ltac:(lia)).
  pose proof (Z.mod_pos_bound td 86400000000000 ltac:(lia)).
  lia.
Qed.

Lemma days_of_timedelta (n : Z) : Pd.days (Pd.timedelta n) = n.
Proof. unfold Pd.days, Pd.timedelta, Pd.ns_per_day. apply Z.div_mul. lia. Qed.

Lemma status_labels_distinct : NoDup [Undetermined; Overdue; Urgent; Upcoming; Good].
Proof. apply (bool_decide_unpack _). vm_compute. exact I. Qed.

Section Evaluator.
Context `{External}.

(** The evaluator as a function of the clock reading and the row. *)
Lemma calculate_maintenance_status_run (row : Row) (w : World) :
  calculate_maintenance_status row w =
    (inr match Next_Maintenance row with
         | None => (Undetermined, icon_white)
         | Some next =>
             let days_until := Pd.days (next - clock w) in
             if bool_decide (days_until < 0) then (Overdue, icon_red)
             else if bool_decide (days_until ≤ 7) then (Urgent, icon_orange)
             else if bool_decide (days_until ≤ 30) then (Upcoming, icon_yellow)
             else (Good, icon_green)
         end, w).
Proof.
  unfold calculate_maintenance_status, bind, Timestamp_now, ret.
  destruct (Next_Maintenance row); [|done].
  cbv zeta. repeat case_bool_decide; done.
Qed.

(** C1.  For every row and every clock reading the evaluator returns, and
    its label is one of the five status labels.  With no next-maintenance
    date the label is Undetermined.  Otherwise, with [days_until] the
    whole number of days from the clock reading to that date, rounded
    down, the label is Overdue exactly when [days_until < 0], Urgent
    exactly when [0 <= days_until <= 7], Upcoming exactly when
    [8 <= days_until <= 30] and Good exactly when [days_until > 30]; the
    five labels are pairwise different, so exactly one applies. *)
Theorem status_evaluator_total_partition (row : Row) (w : World) :
  ∃ label icon,
    calculate_maintenance_status row w = (inr (label, icon), w)
    ∧ label ∈ [Undetermined; Overdue; Urgent; Upcoming; Good]
    ∧ NoDup [Undetermined; Overdue; Urgent; Upcoming; Good]
    ∧ match Next_Maintenance row with
      | None => label = Undetermined
      | Some next =>
          ∃ days_until,
            days_until * Pd.ns_per_day ≤ next - clock w
              < (days_until + 1) * Pd.ns_per_day
            ∧ (label = Overdue ↔ days_until < 0)
            ∧ (label = Urgent ↔ 0 ≤ days_until ≤ 7)
            ∧ (label = Upcoming ↔ 8 ≤ days_until ≤ 30)
            ∧ (label = Good ↔ 30 < days_until)
            ∧ label ≠ Undetermined
      end.
Proof.
  rewrite calculate_maintenance_status_run.
  pose proof status_labels_distinct as Hnd.
  destruct (Next_Maintenance row) as [next|].
  - set (d := Pd.days (next - clock w)). cbv zeta.
    repeat case_bool_decide; eexists _, _; (split; [reflexivity|]);
      (split; [set_solver|]); (split; [exact Hnd|]); exists d;
      (split; [apply days_floor|]);
      repeat split; first [done | lia | intros Heq; discriminate Heq].
  - eexists _, _. repeat split; [set_solver|done].
Qed.

(** C2.  The evaluator is a function of the row and the clock reading
    alone, and it changes nothing: in any two worlds with the same clock
    reading, rows with the same next-maintenance date get the same status
    pair, computed from the same number of days until due, each world is
    left as it was, and evaluating the same row twice in a row gives the
    same result both times. *)
Theorem status_evaluator_pure (row1 row2 : Row) (w1 w2 : World) :
  clock w1 = clock w2 →
  Next_Maintenance row1 = Next_Maintenance row2 →
  ∃ result,
    calculate_maintenance_status row1 w1 = (inr result, w1)
    ∧ calculate_maintenance_status row2 w2 = (inr result, w2)
    ∧ ((λ next, Pd.days (next - clock w1)) <$> Next_Maintenance row1)
      = ((λ next, Pd.days (next - clock w2)) <$> Next_Maintenance row2)
    ∧ bind (calculate_maintenance_status row1)
        (λ first, bind (calculate_maintenance_status row1)
                    (λ second, ret (first, second))) w1
      = (inr (result, result), w1).
Proof.
  intros Hclock Hnext. unfold bind, ret.
  rewrite !calculate_maintenance_status_run, Hclock, Hnext.
  eexists. repeat split; reflexivity.
Qed.

End Evaluator.

(** ** Saving, and logging a maintenance event *)

Lemma alter_as_insert {A} (f : A → A) (l : list A) (i : nat) (x : A) :
  l !! i = Some x → alter f i l = <[i := f x]> l.
Proof.
  revert i. induction l as [|y l IH]; intros [|i] Hi; simplify_eq/=; [done|].
  f_equal. by apply IH.
Qed.

Lemma truthy_nonempty (s : string) : s ≠ "" → Py.truthy s = true.
Proof. intros Hne. unfold Py.truthy. by rewrite bool_decide_eq_false_2. Qed.

Section MaintenanceLog.
Context `{External}.

(** [save_data] never raises: it answers [True] after a successful write,
    and after a failed one it shows the error and answers [False]; the
    frame of the session is not touched either way. *)
Lemma save_data_run (df : DataFrame) (path : string) (w : World) :
  save_data df path w =
    match to_excel (drop_center_columns df) path (disk w) with
    | (None, d) => (inr true, mkWorld (clock w) (session_df w) d (ui w))
    | (Some msg, d) =>
        (inr false,
         mkWorld (clock w) (session_df w) d
           (ui w ++ [Error ("خطأ في حفظ البيانات: " +:+ msg)]))
    end.
Proof.
  unfold save_data, try_except, bind, df_to_excel, st_error, show, ret.
  destruct (to_excel _ _ _) as [[msg|] d]; reflexivity.
Qed.

Lemma log_maintenance_run (asset_id : string) (form : MaintenanceForm) (w : World)
    (idx : nat) (dev : Row) :
  asset_id ≠ "" →
  list_find (λ r, Asset_ID r = asset_id) (session_df w) = Some (idx, dev) →
  log_maintenance asset_id form w =
    let df' := <[idx := logged_row form dev]> (session_df w) in
    match to_excel (drop_center_columns df') data_file (disk w) with
    | (None, d) =>
        (inl RerunException,
         mkWorld (clock w) df' d
           (ui w ++ [Success ("✅ تم تسجيل الصيانة بنجاح! الصيانة القادمة: "
                              +:+ Py.str_of_date (maintenance_date form
                                                  + next_maintenance_interval form))]))
    | (Some msg, d) =>
        (inr (),
         mkWorld (clock w) df' d
           ((ui w ++ [Error ("خطأ في حفظ البيانات: " +:+ msg)])
            ++ [Error "❌ فشل حفظ البيانات"]))
    end.
Proof.
  intros Hid%truthy_nonempty Hfind.
  pose proof Hfind as (Hidx & _ & _)%list_find_Some.
  unfold log_maintenance. rewrite Hid. cbn [negb].
  unfold bind, get_df. rewrite Hfind. cbv beta iota zeta.
  unfold loc_set. cbn [session_df clock disk ui].
  rewrite !list_alter_alter_eq.
  rewrite (alter_as_insert _ _ _ _ Hidx).
  rewrite save_data_run. cbn [session_df clock disk ui].
  change ((_ ∘ _) dev) with (logged_row form dev).
  destruct (to_excel _ _ _) as [[msg|] d]; reflexivity.
Qed.

(** C3.  Logging a maintenance event done on date [D] with interval [I]
    on a device of the frame leaves that device with last maintenance [D]
    and next maintenance exactly [I] days after [D]; evaluated at clock
    reading [D], the device is Upcoming when [8 <= I <= 30] and Good when
    [I > 30]. *)
Theorem log_maintenance_round_trip (asset_id : string) (form : MaintenanceForm)
    (w : World) (idx : nat) (dev : Row) :
  asset_id ≠ "" →
  list_find (λ r, Asset_ID r = asset_id) (session_df w) = Some (idx, dev) →
  ∃ row',
    session_df (log_maintenance asset_id form w).2 !! idx = Some row'
    ∧ Asset_ID row' = asset_id
    ∧ Last_Maintenance row' = Some (Pd.Timestamp_of_date (maintenance_date form))
    ∧ Next_Maintenance row'
      = Some (Pd.Timestamp_of_date (maintenance_date form)
              + Pd.timedelta (next_maintenance_interval form))
    ∧ ∀ w_eval : World,
        clock w_eval = Pd.Timestamp_of_date (maintenance_date form) →
        (8 ≤ next_maintenance_interval form ≤ 30 →
         calculate_maintenance_status row' w_eval = (inr (Upcoming, icon_yellow), w_eval))
        ∧ (30 < next_maintenance_interval form →
           calculate_maintenance_status row' w_eval = (inr (Good, icon_green), w_eval)).
Proof.
  intros Hne Hfind.
  pose proof Hfind as (Hidx & Hid & _)%list_find_Some.
  exists (logged_row form dev).
  rewrite (log_maintenance_run _ _ _ _ _ Hne Hfind). cbv zeta.
  split.
  { destruct (to_excel _ _ _) as [[msg|] d]; cbn [snd session_df];
      apply list_lookup_insert_eq; by eapply lookup_lt_Some. }
  repeat split; try done.
  all: intros HI; rewrite calculate_maintenance_status_run; cbn [logged_row Next_Maintenance].
  all: replace (_ + Pd.timedelta _ - clock w_eval)
         with (Pd.timedelta (next_maintenance_interval form)) by lia.
  all: rewrite days_of_timedelta; cbv zeta.
  all: repeat case_bool_decide; first [reflexivity | lia].
Qed.

(** C9.  Logging a maintenance event with interval [N] on a device of the
    frame rewrites exactly one row, the device's: its interval becomes
    [N], its last maintenance the logged date, its next maintenance [N]
    days later, its device status the one chosen in the form, and its
    notes gain one line stamped with the date; the other twelve columns of
    that row, every other row and the number of rows stay as they were.
    This holds for every [N], in particular for those the form admits,
    [7 <= N <= 365]. *)
Theorem log_maintenance_frame (asset_id : string) (form : MaintenanceForm)
    (w : World) (idx : nat) (dev : Row) :
  asset_id ≠ "" →
  list_find (λ r, Asset_ID r = asset_id) (session_df w) = Some (idx, dev) →
  let df' := session_df (log_maintenance asset_id form w).2 in
  length df' = length (session_df w)
  ∧ (∀ j, j ≠ idx → df' !! j = session_df w !! j)
  ∧ ∃ row',
      df' !! idx = Some row'
      ∧ Maintenance_Interval_Days row' = next_maintenance_interval form
      ∧ Last_Maintenance row' = Some (Pd.Timestamp_of_date (maintenance_date form))
      ∧ Next_Maintenance row'
        = Some (Pd.Timestamp_of_date (maintenance_date form)
                + Pd.timedelta (next_maintenance_interval form))
      ∧ Device_Status row' = device_status_after form
      ∧ Notes row'
        = Some (default "" (Notes dev)
                +:+ String "010"%char
                      ("[" +:+ Py.str_of_date (maintenance_date form) +:+ "] "
                       +:+ maintenance_type form +:+ " - " +:+ technician form
                       +:+ ": " +:+ maintenance_notes form))
      ∧ Asset_ID row' = Asset_ID dev
      ∧ Scientific_Department row' = Scientific_Department dev
      ∧ Scientific_Equipment_Name row' = Scientific_Equipment_Name dev
      ∧ Manufacturer row' = Manufacturer dev
      ∧ Model row' = Model dev
      ∧ Serial_No row' = Serial_No dev
      ∧ PPM_Done row' = PPM_Done dev
      ∧ Installation_Date row' = Installation_Date dev
      ∧ Status row' = Status dev
      ∧ Center_Code row' = Center_Code dev
      ∧ Center_Name row' = Center_Name dev
      ∧ Priority row' = Priority dev.
Proof.
  intros Hne Hfind df'.
  pose proof Hfind as (Hidx & _ & _)%list_find_Some.
  assert (Hdf : df' = <[idx := logged_row form dev]> (session_df w)).
  { subst df'. rewrite (log_maintenance_run _ _ _ _ _ Hne Hfind). cbv zeta.
    destruct (to_excel _ _ _) as [[msg|] d]; reflexivity. }
  rewrite Hdf. split; [apply length_insert|].
  split; [intros j Hj; by apply list_lookup_insert_ne|].
  exists (logged_row form dev). split.
  { apply list_lookup_insert_eq. by eapply lookup_lt_Some. }
  repeat split.
Qed.

(** C7.  [save_data] does not raise: when the write fails it shows the
    error and returns [False], leaving the frame of the session alone.
    So when the save at the end of a maintenance log fails, the handler
    ends normally with two error messages on the page and the session
    frame still holds the edited row. *)
Theorem save_failure_keeps_edit (asset_id : string) (form : MaintenanceForm)
    (w : World) (idx : nat) (dev : Row) (msg : string) (d : Disk) :
  asset_id ≠ "" →
  list_find (λ r, Asset_ID r = asset_id) (session_df w) = Some (idx, dev) →
  to_excel (drop_center_columns (<[idx := logged_row form dev]> (session_df w)))
    data_file (disk w) = (Some msg, d) →
  let edited := <[idx := logged_row form dev]> (session_df w) in
  save_data edited data_file (mkWorld (clock w) edited (disk w) (ui w))
    = (inr false,
       mkWorld (clock w) edited d (ui w ++ [Error ("خطأ في حفظ البيانات: " +:+ msg)]))
  ∧ log_maintenance asset_id form w
    = (inr (),
       mkWorld (clock w) edited d
         ((ui w ++ [Error ("خطأ في حفظ البيانات: " +:+ msg)])
          ++ [Error "❌ فشل حفظ البيانات"]))
  ∧ edited !! idx = Some (logged_row form dev)
  ∧ ∀ (df : DataFrame) (path : string) (w0 : World),
      ∃ saved w0',
        save_data df path w0 = (inr saved, w0')
        ∧ session_df w0' = session_df w0
        ∧ (saved = false ↔ ∃ m, (to_excel (drop_center_columns df) path (disk w0)).1 = Some m)
        ∧ (saved = false →
           ∃ m, ui w0' = ui w0 ++ [Error ("خطأ في حفظ البيانات: " +:+ m)]).
Proof.
  intros Hne Hfind Hfail edited. subst edited.
  pose proof Hfind as (Hidx & _ & _)%list_find_Some.
  split; [|split; [|split]].
  - rewrite save_data_run. cbn [disk]. by rewrite Hfail.
  - rewrite (log_maintenance_run _ _ _ _ _ Hne Hfind). cbv zeta.
    by rewrite Hfail.
  - apply list_lookup_insert_eq. by eapply lookup_lt_Some.
  - clear. intros df path w0. rewrite save_data_run.
    destruct (to_excel _ _ _) as [[m|] d0]; eexists _, _;
      (split; [reflexivity|]); cbn [session_df ui fst]; (split; [done|]).
    + split; [split; [intros _; by exists m|done]|]. intros _. by exists m.
    + split; [split; [done|by intros [? ?]]|done].
Qed.

End MaintenanceLog.

(** ** Applying an interval to an equipment type *)

Lemma elem_of_mask_index (mask : Row → bool) (df : DataFrame) (j : nat) :
  j ∈ mask_index mask df ↔ ∃ r, df !! j = Some r ∧ mask r = true.
Proof.
  unfold mask_index. rewrite list_elem_of_fmap. split.
  - intros [[i r] [-> [Hm Hin]%list_elem_of_filter]]. simpl in *.
    apply elem_of_lookup_imap in Hin as (i' & r' & Heq & Hl). simplify_eq.
    eauto.
  - intros (r & Hl & Hm). exists (j, r). split; [done|].
    apply list_elem_of_filter. split; [done|].
    apply elem_of_lookup_imap. eauto.
Qed.

Lemma mask_index_lt (mask : Row → bool) (df : DataFrame) (j : nat) :
  j ∈ mask_index mask df → (j < length df)%nat.
Proof. intros (r & Hl & _)%elem_of_mask_index. by eapply lookup_lt_Some. Qed.

Lemma foldl_alter_lookup {A} (f : A → A) (idxs : list nat) (l : list A) (j : nat) :
  (∀ x, f (f x) = f x) →
  foldl (λ acc i, alter f i acc) l idxs !! j
  = if decide (j ∈ idxs) then f <$> l !! j else l !! j.
Proof.
  intros Hidem. revert l. induction idxs as [|i idxs IH]; intros l; cbn [foldl].
  { case_decide as Hin; [by apply elem_of_nil in Hin|done]. }
  rewrite IH. destruct (decide (j = i)) as [->|Hne].
  - rewrite list_lookup_alter_eq.
    destruct (decide (i ∈ i :: idxs)) as [_|Hnin];
      [|by destruct Hnin; apply list_elem_of_here].
    case_decide; [|done].
    destruct (l !! i); simpl; [|done]. by rewrite Hidem.
  - rewrite list_lookup_alter_ne by done.
    destruct (decide (j ∈ idxs)) as [Hin|Hnin],
             (decide (j ∈ i :: idxs)) as [Hin'|Hnin']; try done.
    + by destruct Hnin'; apply list_elem_of_further.
    + by apply elem_of_cons in Hin' as [?|?].
Qed.

Lemma reschedule_idempotent (n : Z) (r : Row) :
  reschedule n (reschedule n r) = reschedule n r.
Proof. unfold reschedule. destruct r as [? ? ? ? ? ? ? ? ? ? ? [last|] ?]; done. Qed.

Lemma foldl_reschedule (mask : Row → bool) (n : Z) (df : DataFrame) :
  foldl (λ acc i, alter (reschedule n) i acc) df (mask_index mask df)
  = (λ r, if mask r then reschedule n r else r) <$> df.
Proof.
  apply list_eq. intros j.
  rewrite foldl_alter_lookup by apply reschedule_idempotent.
  rewrite list_lookup_fmap.
  destruct (df !! j) as [r|] eqn:Hr; simpl; [|by case_decide].
  case_decide as Hin.
  - apply elem_of_mask_index in Hin as (r' & Hl & Hm). simplify_eq.
    by rewrite Hm.
  - destruct (mask r) eqn:Hm; [|done].
    exfalso. apply Hin, elem_of_mask_index. eauto.
Qed.

Section Intervals.
Context `{External}.

Lemma recompute_next_run (n : Z) (idx : nat) (w : World) :
  (idx < length (session_df w))%nat →
  recompute_next n idx w
  = (inr (), mkWorld (clock w) (alter (reschedule n) idx (session_df w)) (disk w) (ui w)).
Proof.
  intros [r Hr]%lookup_lt_is_Some_2.
  unfold recompute_next, bind, get_df. rewrite Hr.
  rewrite (alter_as_insert _ _ _ _ Hr). unfold reschedule.
  destruct (Last_Maintenance r) as [last|].
  - unfold loc_set. by rewrite (alter_as_insert _ _ _ _ Hr).
  - unfold ret. rewrite list_insert_id by done. by destruct w.
Qed.

Lemma for_each_recompute_run (n : Z) (idxs : list nat) (w : World) :
  (∀ i, i ∈ idxs → (i < length (session_df w))%nat) →
  for_each idxs (recompute_next n) w
  = (inr (),
     mkWorld (clock w)
       (foldl (λ acc i, alter (reschedule n) i acc) (session_df w) idxs)
       (disk w) (ui w)).
Proof.
  revert w. induction idxs as [|i idxs IH]; intros w Hlt; simpl.
  { unfold ret. by destruct w. }
  unfold bind. rewrite recompute_next_run by (apply Hlt, list_elem_of_here).
  rewrite IH; [done|].
  intros j Hj. cbn [session_df]. rewrite length_alter.
  by apply Hlt, list_elem_of_further.
Qed.

(** The frame left in the session by [apply_interval], whatever the
    outcome of the save. *)
Lemma apply_interval_df (selected_equipment : string) (new_interval : Z) (w : World) :
  selected_equipment ≠ "" →
  session_df (apply_interval selected_equipment new_interval w).2
  = with_interval selected_equipment new_interval <$> session_df w.
Proof.
  intros Hsel%truthy_nonempty.
  set (mask := λ r, col_eq (Scientific_Equipment_Name r) selected_equipment).
  set (df1 := (λ r, if mask r then set_Maintenance_Interval_Days new_interval r else r)
                <$> session_df w).
  assert (Hrun : session_df (apply_interval selected_equipment new_interval w).2
                 = foldl (λ acc i, alter (reschedule new_interval) i acc) df1
                     (mask_index mask df1)).
  { unfold apply_interval. rewrite Hsel. cbn [negb].
    unfold bind, get_df, put_df. cbn [session_df clock disk ui].
    fold mask. fold df1.
    rewrite for_each_recompute_run
      by (intros i Hi; cbn [session_df]; by eapply mask_index_lt).
    cbn [session_df clock disk ui]. rewrite save_data_run.
    destruct (to_excel _ _ _) as [[msg|] d]; reflexivity. }
  rewrite Hrun, foldl_reschedule. subst df1.
  rewrite <- list_fmap_compose. apply list_fmap_ext. intros _ r _.
  unfold with_interval, mask, compose.
  destruct (col_eq (Scientific_Equipment_Name r) selected_equipment) eqn:Hm;
    cbn [set_Maintenance_Interval_Days Scientific_Equipment_Name]; by rewrite Hm.
Qed.

(** C4, as the code has it.  Applying interval [N] to an equipment type
    keeps the number of rows.  Every row of that type gets interval [N];
    if it has a last maintenance, its next maintenance becomes that date
    plus [N] days, and if it has none, its next maintenance is left as it
    was, present or absent; no other column of it changes.  Rows of other
    equipment types are unchanged. *)
Theorem apply_interval_effect (selected_equipment : string) (new_interval : Z) (w : World) :
  selected_equipment ≠ "" →
  let df' := session_df (apply_interval selected_equipment new_interval w).2 in
  length df' = length (session_df w)
  ∧ ∀ i r, session_df w !! i = Some r →
      ∃ r', df' !! i = Some r'
        ∧ (Scientific_Equipment_Name r ≠ Some selected_equipment → r' = r)
        ∧ (Scientific_Equipment_Name r = Some selected_equipment →
           Maintenance_Interval_Days r' = new_interval
           ∧ (∀ last, Last_Maintenance r = Some last →
                Next_Maintenance r' = Some (last + Pd.timedelta new_interval))
           ∧ (Last_Maintenance r = None → Next_Maintenance r' = Next_Maintenance r)
           ∧ r' = set_Next_Maintenance (Next_Maintenance r')
                    (set_Maintenance_Interval_Days new_interval r)).
Proof.
  intros Hsel df'. subst df'. rewrite (apply_interval_df _ _ _ Hsel).
  split; [apply length_fmap|].
  intros i r Hr. exists (with_interval selected_equipment new_interval r).
  split; [by rewrite list_lookup_fmap, Hr|].
  unfold with_interval, col_eq. split.
  - intros Hne. by rewrite bool_decide_eq_false_2.
  - intros Heq. rewrite bool_decide_eq_true_2 by done.
    unfold reschedule. cbn [set_Maintenance_Interval_Days Last_Maintenance].
    destruct (Last_Maintenance r) as [last|] eqn:Hlast.
    + split; [done|]. split; [by intros ? [= <-]|]. split; done.
    + split; [done|]. split; [done|]. split; [done|].
      destruct r; by simplify_eq/=.
Qed.

End Intervals.

(** ** Restoring a backup *)

Section Restore.
Context `{External}.

(** C8.  Restoring is all or nothing.  If the uploaded file does not parse,
    the handler shows the error and ends normally with the session frame,
    the clock and the disk exactly as before.  If it parses, the parsed
    frame becomes the session frame, a success message is shown and the page
    reruns. *)
Theorem restore_all_or_nothing (uploaded_backup : Upload) (w : World) :
  match read_excel_upload uploaded_backup with
  | inl msg =>
      restore_backup uploaded_backup w
      = (inr (),
         mkWorld (clock w) (session_df w) (disk w)
           (ui w ++ [Error ("❌ خطأ في استعادة البيانات: " +:+ msg)]))
  | inr restored_df =>
      restore_backup uploaded_backup w
      = (inl RerunException,
         mkWorld (clock w) restored_df (disk w)
           (ui w ++ [Success "✅ تم استعادة البيانات بنجاح!"]))
  end.
Proof.
  unfold restore_backup, try_except, bind, pd_read_upload.
  destruct (read_excel_upload uploaded_backup) as [msg|restored_df]; reflexivity.
Qed.

End Restore.

(** ** The dashboard *)

Lemma select_as_filter (mask : Row → bool) (P : Row → Prop) `{!∀ r, Decision (P r)}
    (df : DataFrame) :
  (∀ r, mask r = true ↔ P r) → select mask df = filter P df.
Proof.
  intros Hiff. unfold select. apply list_filter_iff. intros r.
  rewrite <- Hiff. apply Is_true_true.
Qed.

Lemma table_mask_spec (now : Pd.Timestamp) (r : Row) :
  Pd.days_until_le (Next_Maintenance r) now 7 && Pd.notna (Next_Maintenance r) = true
  ↔ needs_immediate now r.
Proof.
  unfold needs_immediate, Pd.days_until_le, Pd.notna, Pd.isna.
  destruct (Next_Maintenance r) as [next|]; simpl; [|done].
  rewrite andb_true_r. apply bool_decide_eq_true.
Qed.

Lemma urgent_mask_spec (now : Pd.Timestamp) (r : Row) :
  Pd.days_until_le (Next_Maintenance r) now 7 && Pd.ge (Next_Maintenance r) now
    && Pd.notna (Next_Maintenance r) = true
  ↔ counted_urgent now r.
Proof.
  unfold counted_urgent, Pd.days_until_le, Pd.ge, Pd.notna, Pd.isna.
  destruct (Next_Maintenance r) as [next|]; simpl.
  - rewrite andb_true_r, andb_true_iff, !bool_decide_eq_true. done.
  - done.
Qed.

Lemma counted_urgent_needs_immediate (now : Pd.Timestamp) (r : Row) :
  counted_urgent now r → needs_immediate now r.
Proof.
  unfold counted_urgent, needs_immediate.
  destruct (Next_Maintenance r); [by intros [? _]|done].
Qed.

Lemma counted_urgent_le_table (now : Pd.Timestamp) (df : DataFrame) :
  (length (filter (counted_urgent now) df) ≤ length (filter (needs_immediate now) df))%nat.
Proof.
  induction df as [|r df IH]; [done|].
  rewrite !filter_cons.
  pose proof (counted_urgent_needs_immediate now r).
  destruct (decide (counted_urgent now r)), (decide (needs_immediate now r));
    simpl; first [lia | exfalso; auto].
Qed.

Section Dashboard.
Context `{External}.

Lemma bind_run {A B} (m : App A) (k : A → App B) (w w' : World) (a : A) :
  m w = (inr a, w') → bind m k w = k a w'.
Proof. intros Hm. unfold bind. by rewrite Hm. Qed.

Lemma map_rows_status_run (df : DataFrame) (w : World) :
  ∃ statuses,
    map_rows (λ row, bind (calculate_maintenance_status row) (λ s, ret s.1)) df w
    = (inr statuses, w).
Proof.
  induction df as [|r df [statuses IH]]; [by eexists|].
  cbn [map_rows].
  erewrite bind_run; [|erewrite bind_run;
                        [reflexivity|apply calculate_maintenance_status_run]].
  erewrite bind_run by exact IH. by eexists.
Qed.

Lemma show_dashboard_run (selected_centers selected_departments status_filter : list string)
    (w : World) :
  let df_filtered :=
    apply_filters selected_centers selected_departments status_filter (session_df w) in
  ∃ board,
    show_dashboard selected_centers selected_departments status_filter w = (inr board, w)
    ∧ urgent board = length (filter (counted_urgent (clock w)) df_filtered)
    ∧ urgent_devices board = merge_sort Next_le (filter (needs_immediate (clock w)) df_filtered)
    ∧ urgent_table board = take 10 (urgent_devices board).
Proof.
  intros df_filtered.
  destruct (map_rows_status_run df_filtered w) as [statuses Hst].
  unfold show_dashboard.
  do 4 (erewrite bind_run by reflexivity).
  erewrite bind_run by exact Hst.
  erewrite bind_run by reflexivity.
  unfold ret. eexists. split; [reflexivity|].
  cbn [urgent urgent_devices urgent_table]. fold df_filtered.
  rewrite (select_as_filter _ _ _ (urgent_mask_spec (clock w))).
  rewrite (select_as_filter _ _ _ (table_mask_spec (clock w))).
  done.
Qed.

(** C10.  The dashboard's immediate-maintenance table holds exactly the
    filtered rows that have a next-maintenance date at most seven whole days
    ahead of the clock reading, with no lower bound (sorted by that date,
    the first ten shown), while the urgent metric counts the filtered rows
    that in addition are not before the clock reading.  So every overdue
    row is in the table and is not counted, the count never exceeds the
    size of the table, and there is a record set for which the table shows a
    device while the urgent count is zero. *)
Theorem dashboard_table_includes_overdue
    (selected_centers selected_departments status_filter : list string) (w : World) :
  let df_filtered :=
    apply_filters selected_centers selected_departments status_filter (session_df w) in
  (∃ board,
     show_dashboard selected_centers selected_departments status_filter w = (inr board, w)
     ∧ urgent_devices board ≡ₚ filter (needs_immediate (clock w)) df_filtered
     ∧ urgent_table board = take 10 (urgent_devices board)
     ∧ urgent board = length (filter (counted_urgent (clock w)) df_filtered)
     ∧ (∀ r next, r ∈ df_filtered → Next_Maintenance r = Some next → next < clock w →
          r ∈ urgent_devices board ∧ ¬ counted_urgent (clock w) r)
     ∧ (urgent board ≤ length (urgent_devices board))%nat)
  ∧ ∃ (df : DataFrame) (now : Pd.Timestamp) (board : Dashboard) (r : Row),
      let w' := mkWorld now df (disk w) (ui w) in
      show_dashboard [] [] [] w' = (inr board, w')
      ∧ r ∈ df
      ∧ r ∈ urgent_table board
      ∧ urgent board = 0%nat.
Proof.
  intros df_filtered. split.
  - destruct (show_dashboard_run selected_centers selected_departments status_filter w)
      as (board & Hrun & Hurgent & Hdevices & Htable).
    fold df_filtered in Hurgent, Hdevices.
    assert (Hperm : urgent_devices board ≡ₚ filter (needs_immediate (clock w)) df_filtered).
    { rewrite Hdevices. apply merge_sort_Permutation. }
    exists board. split; [done|]. split; [done|]. split; [done|]. split; [done|].
    split; [|rewrite Hurgent, Hperm; apply counted_urgent_le_table].
    intros r next Hin Hnext Hlt. split.
    + rewrite Hperm. apply list_elem_of_filter. split; [|done].
      unfold needs_immediate. rewrite Hnext.
      pose proof (days_floor (next - clock w)). unfold Pd.ns_per_day in *. lia.
    + unfold counted_urgent. rewrite Hnext. lia.
  - set (r := device "KHL-PHC-001" "Centrifuge" None (Some 0)).
    set (w' := mkWorld (Pd.timedelta 1) [r] (disk w) (ui w)).
    destruct (show_dashboard_run [] [] [] w') as (board & Hrun & Hurgent & Hdevices & Htable).
    exists [r], (Pd.timedelta 1), board, r.
    split; [exact Hrun|]. split; [apply list_elem_of_here|].
    rewrite Htable, Hdevices, Hurgent. split; [|reflexivity].
    apply list_elem_of_here.
Qed.

End Dashboard.

(** ** Asset-id allocation *)

Lemma list_ascii_of_string_app (s t : string) :
  list_ascii_of_string (s +:+ t) = list_ascii_of_string s ++ list_ascii_of_string t.
Proof. induction s as [|c s IH]; simpl; [done|]. by rewrite IH. Qed.

Lemma split_dash_aux_nonempty (cur s : list ascii) : Py.split_dash_aux cur s ≠ [].
Proof.
  revert cur. induction s as [|c s IH]; intros cur; cbn [Py.split_dash_aux]; [done|].
  destruct (decide (c = Py.dash)); [done|apply IH].
Qed.

Lemma split_dash_aux_no_dash (cur t : list ascii) :
  Py.dash ∉ t → Py.split_dash_aux cur t = [reverse cur ++ t].
Proof.
  revert cur. induction t as [|c t IH]; intros cur Hnin; cbn [Py.split_dash_aux].
  { by rewrite app_nil_r. }
  apply not_elem_of_cons in Hnin as [Hc Ht].
  destruct (decide (c = Py.dash)) as [->|_]; [done|].
  rewrite IH by done. by rewrite reverse_cons, <- app_assoc.
Qed.

Lemma last_split_dash_aux (cur s t : list ascii) :
  Py.dash ∉ t → last (Py.split_dash_aux cur (s ++ Py.dash :: t)) = Some t.
Proof.
  intros Hnin. revert cur.
  induction s as [|c s IH]; intros cur; cbn [app Py.split_dash_aux].
  - destruct (decide (Py.dash = Py.dash)) as [_|]; [|done].
    rewrite split_dash_aux_no_dash by done. reflexivity.
  - destruct (decide (c = Py.dash)) as [_|_]; [|apply IH].
    specialize (IH []). pose proof (split_dash_aux_nonempty [] (s ++ Py.dash :: t)).
    destruct (Py.split_dash_aux [] (s ++ Py.dash :: t)); done.
Qed.

Lemma last_part_suffix (code tail : string) :
  Py.dash ∉ list_ascii_of_string tail →
  Py.last_part (Py.split_dash (code +:+ "-" +:+ tail)) = tail.
Proof.
  intros Hnin. unfold Py.last_part, Py.split_dash.
  rewrite fmap_last, list_ascii_of_string_app. simpl.
  rewrite (last_split_dash_aux [] _ _ Hnin). simpl.
  apply string_of_list_ascii_of_string.
Qed.

(** The scan keeps the largest parsed number, from zero. *)
Lemma max_asset_number_from (acc : Z) (ids : list string) :
  let step := λ max_num asset_id,
    match Py.int (Py.last_part (Py.split_dash asset_id)) with
    | Some num => Z.max max_num num
    | None => max_num
    end in
  let M := foldl step acc ids in
  acc ≤ M
  ∧ (∀ id n, id ∈ ids → Py.int (Py.last_part (Py.split_dash id)) = Some n → n ≤ M)
  ∧ (M = acc ∨ ∃ id, id ∈ ids ∧ Py.int (Py.last_part (Py.split_dash id)) = Some M).
Proof.
  intros step. revert acc. induction ids as [|id ids IH]; intros acc; cbn [foldl].
  { split; [lia|]. split; [by intros ? ? ?%elem_of_nil|by left]. }
  destruct (IH (step acc id)) as (Hle & Hub & Hatt).
  assert (Hstep : acc ≤ step acc id) by (unfold step; destruct (Py.int _); lia).
  split; [lia|]. split.
  - intros id' n [->|Hin]%elem_of_cons Hparse; [|by eapply Hub].
    assert (n ≤ step acc id) by (unfold step; rewrite Hparse; lia). lia.
  - destruct Hatt as [->|(id' & Hin & Hparse)].
    + unfold step. destruct (Py.int _) as [num|] eqn:Hparse; [|by left].
      destruct (Z.max_spec acc num) as [[_ ->]|[_ ->]]; [|by left].
      right. exists id. split; [apply list_elem_of_here|done].
    + right. exists id'. split; [by apply list_elem_of_further|done].
Qed.

Lemma elem_of_existing_ids (df : DataFrame) (code id : string) :
  id ∈ existing_ids df code ↔ ∃ r, r ∈ df ∧ Center_Code r = Some code ∧ Asset_ID r = id.
Proof.
  unfold existing_ids, select, col_eq. rewrite list_elem_of_fmap. split.
  - intros (r & -> & [Hm Hin]%list_elem_of_filter).
    apply bool_decide_unpack in Hm. eauto.
  - intros (r & Hin & Hc & <-). exists r. split; [done|].
    apply list_elem_of_filter. split; [|done]. by apply bool_decide_pack.
Qed.

(** *** Conversions and the number of digits

    A number read by [int] has no more digits than the text has bytes, and
    [f"{n:03d}"] writes a number below [10 ^ k] in at most [k] characters
    (three at least). *)
















Section Allocation.
Context `{External}.



End Allocation.

(** ** The table of centers *)

Lemma centers_rev_lookup (name code : string) :
  CENTERS_DICT_REV !! name = Some code ↔ (name, code) ∈ CENTERS.
Proof.
  split.
  - revert name code. change (map_Forall (λ name code, (name, code) ∈ CENTERS) CENTERS_DICT_REV).
    apply (bool_decide_unpack _). vm_compute. exact I.
  - revert name code.
    assert (Hall : Forall (λ p, CENTERS_DICT_REV !! p.1 = Some p.2) CENTERS)
      by (apply (bool_decide_unpack _); vm_compute; exact I).
    intros name code Hin. by apply (proj1 (Forall_forall _ _) Hall (name, code)).
Qed.

Lemma centers_lookup (name code : string) :
  CENTERS_DICT !! code = Some name ↔ (name, code) ∈ CENTERS.
Proof.
  split.
  - revert code name. change (map_Forall (λ code name, (name, code) ∈ CENTERS) CENTERS_DICT).
    apply (bool_decide_unpack _). vm_compute. exact I.
  - revert name code.
    assert (Hall : Forall (λ p, CENTERS_DICT !! p.2 = Some p.1) CENTERS)
      by (apply (bool_decide_unpack _); vm_compute; exact I).
    intros name code Hin. by apply (proj1 (Forall_forall _ _) Hall (name, code)).
Qed.

Lemma centers_codes_shape (name code : string) :
  (name, code) ∈ CENTERS → is_center_code code = true ∧ String.length code = 7%nat.
Proof.
  assert (Hall : Forall (λ p, is_center_code p.2 = true ∧ String.length p.2 = 7%nat) CENTERS)
    by (apply (bool_decide_unpack _); vm_compute; exact I).
  intros Hin. by apply (proj1 (Forall_forall _ _) Hall (name, code)).
Qed.

Lemma capital_not_dash (c : ascii) : is_capital c = true → c ≠ Py.dash.
Proof. by intros Hc ->. Qed.

(** The center code read back from an id made of a center code, a dash and
    any tail. *)
Lemma center_code_of_allocated (code tail : string) :
  is_center_code code = true → center_code_of (code +:+ "-" +:+ tail) = code.
Proof.
  unfold is_center_code. intros Hshape.
  rewrite <- (string_of_list_ascii_of_string code).
  destruct (list_ascii_of_string code) as [|a [|b [|c [|d [|p [|h [|k [|]]]]]]]];
    try discriminate Hshape.
  apply andb_true_iff in Hshape as [[[Ha%capital_not_dash Hb%capital_not_dash]%andb_true_iff
                                     Hc%capital_not_dash]%andb_true_iff Htail].
  apply bool_decide_eq_true in Htail. injection Htail as -> -> -> ->.
  unfold center_code_of, Py.split_dash.
  cbn [string_of_list_ascii].
  rewrite !list_ascii_of_string_app.
  cbn [list_ascii_of_string app Py.split_dash_aux].
  rewrite !(decide_False (P := _ = Py.dash)) by done.
  rewrite (decide_True (P := "-"%char = Py.dash)) by done.
  cbn [Py.split_dash_aux].
  rewrite !(decide_False (P := _ = Py.dash)) by done.
  rewrite (decide_True (P := "-"%char = Py.dash)) by done.
  reflexivity.
Qed.

(** C6, as the code has it.  The table has 25 entries, with 25 different
    names and 25 different codes; every code is three capital letters
    followed by [-PHC], seven characters in all.  The two dictionaries built
    from it are each other's inverse: a name maps to a code exactly when the
    code maps to the name.  Loading uses the code-to-name direction for the
    center name of a row, adding a device uses the name-to-code direction,
    and the two agree: the center columns of a device added for a center of
    the table are the ones loading derives from its new asset id. *)
Theorem centers_table :
  length CENTERS = 25%nat
  ∧ size CENTERS_DICT = 25%nat
  ∧ size CENTERS_DICT_REV = 25%nat
  ∧ (∀ name code, CENTERS_DICT_REV !! name = Some code ↔ CENTERS_DICT !! code = Some name)
  ∧ (∀ name code, CENTERS_DICT_REV !! name = Some code ↔ (name, code) ∈ CENTERS)
  ∧ (∀ name code, CENTERS_DICT_REV !! name = Some code →
       is_center_code code = true ∧ String.length code = 7%nat)
  ∧ (∀ r, Center_Name (with_center_columns r)
          = CENTERS_DICT !! Py.join_dash (take 2 (Py.split_dash (Asset_ID r))))
  ∧ (∀ (form : DeviceForm) (df : DataFrame) (code : string),
       CENTERS_DICT_REV !! form_center form = Some code →
       let r := new_row form code (new_asset_id df code) in
       Center_Code r = Some code
       ∧ Center_Name r = Some (form_center form)
       ∧ with_center_columns r = r).
Proof.
  split; [reflexivity|]. split; [by vm_compute|]. split; [by vm_compute|].
  split; [intros name code; by rewrite centers_rev_lookup, centers_lookup|].
  split; [apply centers_rev_lookup|].
  split; [intros name code Hin%centers_rev_lookup; by eapply centers_codes_shape|].
  split; [done|].
  intros form df code Hcode r.
  split; [done|]. split; [done|].
  pose proof Hcode as Hin%centers_rev_lookup.
  pose proof (centers_codes_shape _ _ Hin) as [Hshape _].
  apply centers_lookup in Hin.
  unfold with_center_columns. subst r. cbn [new_row Asset_ID].
  unfold new_asset_id. rewrite (center_code_of_allocated _ _ Hshape), Hin.
  reflexivity.
Qed.

(** ** Further properties: numbers in asset ids *)

Lemma digit_value_pretty_char (x : N) :
  (x < 10)%N → Py.digit_value (pretty_N_char x) = Some (Z.of_N x).
Proof.
  intros Hx.
  assert (x = 0 ∨ x = 1 ∨ x = 2 ∨ x = 3 ∨ x = 4 ∨ x = 5 ∨ x = 6 ∨ x = 7
          ∨ x = 8 ∨ x = 9)%N as Hcases by lia.
  repeat (destruct Hcases as [->|Hcases]; [reflexivity|]). by subst.
Qed.

(** Reading the digits written by [pretty_N_go]: the value read so far is
    shifted by the number of digits and the written number is added. *)
Lemma digits_pretty_N_go (x : N) (s : string) :
  (0 < x)%N →
  ∃ k, ∀ acc flag,
    Py.digits acc flag (list_ascii_of_string (pretty_N_go x s))
    = Py.digits (acc * 10 ^ k + Z.of_N x) true (list_ascii_of_string s)
    ∧ 0 ≤ k.
Proof.
  revert s. induction (N.lt_wf_0 x) as [x _ IH]; intros s Hx.
  rewrite pretty_N_go_step by done.
  assert (Hmod : (x `mod` 10 < 10)%N) by (apply N.mod_lt; lia).
  pose proof (N.div_mod x 10 ltac:(lia)) as Hdiv.
  destruct (decide (x `div` 10 = 0)%N) as [Hzero|Hpos].
  - rewrite Hzero, pretty_N_go_0. exists 1. intros acc flag. split; [|lia].
    cbn [list_ascii_of_string Py.digits].
    rewrite digit_value_pretty_char by done. f_equal. lia.
  - destruct (IH (x `div` 10)%N ltac:(apply N.div_lt; lia)
                (String (pretty_N_char (x `mod` 10)) s) ltac:(lia)) as [k Hk].
    exists (k + 1). intros acc flag. destruct (Hk acc flag) as [-> Hk0].
    split; [|lia].
    cbn [list_ascii_of_string Py.digits].
    rewrite digit_value_pretty_char by done. f_equal.
    rewrite Z.pow_add_r by lia. lia.
Qed.

Lemma pretty_N_go_digits (x : N) (s : string) :
  Forall (λ c, is_Some (Py.digit_value c)) (list_ascii_of_string s) →
  Forall (λ c, is_Some (Py.digit_value c)) (list_ascii_of_string (pretty_N_go x s)).
Proof.
  revert s. induction (N.lt_wf_0 x) as [x _ IH]; intros s Hs.
  destruct (decide (0 < x)%N) as [Hx|Hx].
  - rewrite pretty_N_go_step by done. apply IH; [apply N.div_lt; lia|].
    cbn [list_ascii_of_string]. constructor; [|done].
    rewrite digit_value_pretty_char by (apply N.mod_lt; lia). eauto.
  - assert (x = 0%N) as -> by lia. by rewrite pretty_N_go_0.
Qed.

Lemma pretty_N_go_nonempty (x : N) (s : string) :
  (0 < x)%N → list_ascii_of_string (pretty_N_go x s) ≠ [].
Proof.
  revert s. induction (N.lt_wf_0 x) as [x _ IH]; intros s Hx.
  rewrite pretty_N_go_step by done.
  destruct (decide (x `div` 10 = 0)%N) as [Hzero|Hpos].
  - rewrite Hzero, pretty_N_go_0. done.
  - apply IH; [apply N.div_lt; lia|by apply N.neq_0_lt_0].
Qed.

Lemma digit_not_space (c : ascii) : is_Some (Py.digit_value c) → Py.is_space c = false.
Proof.
  destruct c as [[] [] [] [] [] [] [] []]; intros [d Hd];
    vm_compute in Hd |- *; congruence.
Qed.

Lemma digit_not_sign (c : ascii) :
  is_Some (Py.digit_value c) → c ≠ "+"%char ∧ c ≠ "-"%char.
Proof. split; intros ->; by destruct H as [? ?]. Qed.

Lemma lstrip_digits (l : list ascii) :
  Forall (λ c, is_Some (Py.digit_value c)) l → Py.lstrip l = l.
Proof.
  destruct 1 as [|c l Hc _]; [done|]. cbn [Py.lstrip].
  by rewrite (digit_not_space c Hc).
Qed.

Lemma strip_digits (l : list ascii) :
  Forall (λ c, is_Some (Py.digit_value c)) l → Py.strip l = l.
Proof.
  intros Hl. unfold Py.strip. rewrite (lstrip_digits l Hl).
  rewrite lstrip_digits by by apply Forall_reverse.
  apply reverse_involutive.
Qed.

Lemma digits_zeros (k : nat) (flag : bool) (l : list ascii) :
  Py.digits 0 flag (replicate k "0"%char ++ l)
  = Py.digits 0 (if k is O then flag else true) l.
Proof.
  revert flag. induction k as [|k IH]; intros flag; [done|].
  cbn [replicate app Py.digits]. change (Py.digit_value "0") with (Some 0).
  cbv iota. change (10 * 0 + 0) with 0. rewrite IH. by destruct k.
Qed.

Lemma format_03d_chars (n : Z) :
  0 < n →
  ∃ k body,
    list_ascii_of_string (Py.format_03d n) = replicate k "0"%char ++ body
    ∧ Forall (λ c, is_Some (Py.digit_value c)) body
    ∧ body ≠ []
    ∧ ∃ e, 0 ≤ e ∧ ∀ acc flag, Py.digits acc flag body = Some (acc * 10 ^ e + n).
Proof.
  intros Hn. destruct n as [|p|p]; try lia.
  unfold Py.format_03d. rewrite bool_decide_eq_false_2 by lia.
  unfold Py.zfill. rewrite list_ascii_of_string_app, list_ascii_of_string_of_list_ascii.
  eexists _, _. split; [reflexivity|].
  change (pretty (Z.pos p)) with (pretty_N_go (N.pos p) "").
  split; [by apply pretty_N_go_digits|].
  split; [by apply pretty_N_go_nonempty|].
  destruct (digits_pretty_N_go (N.pos p) "" ltac:(lia)) as [e He].
  exists e. split; [apply (He 0 false)|].
  intros acc flag. destruct (He acc flag) as [-> _]. reflexivity.
Qed.

(** On ASCII text [int] reads the bytes as they are. *)
Lemma digit_is_ascii (c : ascii) :
  is_Some (Py.digit_value c) → (N_of_ascii c <? 128)%N = true.
Proof.
  destruct c as [[] [] [] [] [] [] [] []]; intros [d Hd];
    vm_compute in Hd |- *; congruence.
Qed.

Lemma code_points_ascii (l : list ascii) :
  Forall (λ c, (N_of_ascii c <? 128)%N = true) l →
  Py.code_points l = Some (N_of_ascii <$> l).
Proof.
  induction 1 as [|c l Hc _ IH]; cbn [Py.code_points]; [done|].
  cbv zeta. by rewrite Hc, IH.
Qed.

Lemma int_ascii (s : string) :
  Forall (λ c, (N_of_ascii c <? 128)%N = true) (list_ascii_of_string s) →
  Py.int s = Py.int_of_ascii (list_ascii_of_string s).
Proof.
  intros Hascii. unfold Py.int. rewrite (code_points_ascii _ Hascii).
  f_equal. rewrite <- list_fmap_compose. rewrite <- (list_fmap_id (list_ascii_of_string s)) at 2.
  apply Forall_fmap_ext_1. eapply Forall_impl; [exact Hascii|].
  intros c Hc. cbn. unfold Py.ascii_of_code_point. rewrite Hc. apply ascii_N_embedding.
Qed.

(** The number written by [f"{n:03d}"] is read back by [int]. *)
Lemma int_format_03d (n : Z) : 0 < n → Py.int (Py.format_03d n) = Some n.
Proof.
  intros Hn.
  destruct (format_03d_chars n Hn) as (k & body & Hchars & Hdig & Hne & e & He & Hval).
  assert (Hall : Forall (λ c, is_Some (Py.digit_value c))
                   (list_ascii_of_string (Py.format_03d n))).
  { rewrite Hchars. apply Forall_app. split; [|done].
    apply Forall_replicate. by exists 0. }
  rewrite int_ascii
    by (eapply Forall_impl; [exact Hall|]; intros c Hc; by apply digit_is_ascii).
  unfold Py.int_of_ascii. rewrite (strip_digits _ Hall).
  destruct (list_ascii_of_string (Py.format_03d n)) as [|c rest] eqn:Hl.
  { destruct k; [by destruct body|done]. }
  apply Forall_cons in Hall as [Hc _]. destruct (digit_not_sign c Hc) as [Hplus Hminus].
  rewrite !decide_False by done.
  rewrite Hchars, digits_zeros.
  rewrite Hval. f_equal; lia.
Qed.

Lemma format_03d_no_dash (n : Z) :
  0 < n → Py.dash ∉ list_ascii_of_string (Py.format_03d n).
Proof.
  intros Hn. destruct (format_03d_chars n Hn) as (k & body & -> & Hdig & _).
  intros [Hin|Hin]%elem_of_app.
  - by apply elem_of_replicate in Hin as [? _].
  - apply (proj1 (Forall_forall _ _) Hdig) in Hin. by destruct Hin as [? ?].
Qed.

(** ** Further properties: adding and deleting devices *)

Lemma filter_ext_in {A} (P Q : A → Prop) `{!∀ x, Decision (P x), !∀ x, Decision (Q x)}
    (l : list A) :
  (∀ x, x ∈ l → P x ↔ Q x) → filter P l = filter Q l.
Proof.
  induction l as [|a l IH]; intros Hiff; [done|].
  rewrite !filter_cons, IH by (intros x Hx; apply Hiff; by apply list_elem_of_further).
  pose proof (Hiff a (list_elem_of_here _ _)).
  destruct (decide (P a)), (decide (Q a)); tauto || done.
Qed.

Lemma filter_none {A} (P : A → Prop) `{!∀ x, Decision (P x)} (l : list A) :
  (∀ x, x ∈ l → ¬ P x) → filter P l = [].
Proof.
  induction l as [|a l IH]; intros Hnone; [done|].
  rewrite filter_cons_False by (apply Hnone, list_elem_of_here).
  apply IH. intros x Hx. by apply Hnone, list_elem_of_further.
Qed.

Lemma filter_all {A} (P : A → Prop) `{!∀ x, Decision (P x)} (l : list A) :
  (∀ x, x ∈ l → P x) → filter P l = l.
Proof.
  induction l as [|a l IH]; intros Hall; [done|].
  rewrite filter_cons_True by (apply Hall, list_elem_of_here).
  f_equal. apply IH. intros x Hx. by apply Hall, list_elem_of_further.
Qed.

Lemma max_asset_number_snoc (ids : list string) (id : string) :
  max_asset_number (ids ++ [id])
  = match Py.int (Py.last_part (Py.split_dash id)) with
    | Some num => Z.max (max_asset_number ids) num
    | None => max_asset_number ids
    end.
Proof. unfold max_asset_number. by rewrite foldl_app. Qed.

Lemma max_asset_number_nonneg (ids : list string) : 0 ≤ max_asset_number ids.
Proof. by destruct (max_asset_number_from 0 ids) as [? _]. Qed.

Lemma new_asset_id_tail (df : DataFrame) (code : string) :
  Py.int (Py.last_part (Py.split_dash (new_asset_id df code)))
  = Some (max_asset_number (existing_ids df code) + 1).
Proof.
  pose proof (max_asset_number_nonneg (existing_ids df code)).
  unfold new_asset_id.
  rewrite last_part_suffix by (apply format_03d_no_dash; lia).
  apply int_format_03d. lia.
Qed.

Lemma new_asset_id_not_scanned (df : DataFrame) (code : string) :
  new_asset_id df code ∉ existing_ids df code.
Proof.
  intros Hin.
  destruct (max_asset_number_from 0 (existing_ids df code)) as (_ & Hub & _).
  cbv zeta in Hub. fold (max_asset_number (existing_ids df code)) in Hub.
  specialize (Hub _ _ Hin (new_asset_id_tail df code)). lia.
Qed.

Lemma existing_ids_app (df1 df2 : DataFrame) (code : string) :
  existing_ids (df1 ++ df2) code = existing_ids df1 code ++ existing_ids df2 code.
Proof. unfold existing_ids, select. by rewrite filter_app, fmap_app. Qed.

Lemma existing_ids_new_row (form : DeviceForm) (code code' id : string) :
  existing_ids [new_row form code id] code' = if decide (code = code') then [id] else [].
Proof.
  unfold existing_ids, select, col_eq. rewrite filter_cons, filter_nil.
  cbn [new_row Center_Code].
  destruct (decide (code = code')) as [->|Hne].
  - rewrite decide_True; [done|]. by apply bool_decide_pack.
  - rewrite decide_False; [done|]. intros Hp%bool_decide_unpack. congruence.
Qed.

Lemma new_asset_id_unused (df : DataFrame) (center code : string) :
  CENTERS_DICT_REV !! center = Some code →
  (∀ r, r ∈ df → with_center_columns r = r) →
  new_asset_id df code ∉ (Asset_ID <$> df).
Proof.
  intros Hcode Hloaded (r & Hid & Hin)%list_elem_of_fmap.
  apply (new_asset_id_not_scanned df code).
  apply elem_of_existing_ids. exists r. split; [done|]. split; [|done].
  pose proof Hcode as Htab%centers_rev_lookup.
  destruct (centers_codes_shape _ _ Htab) as [Hshape _].
  rewrite <- (Hloaded r Hin). unfold with_center_columns.
  cbn [set_Center Center_Code]. rewrite <- Hid. unfold new_asset_id.
  by rewrite (center_code_of_allocated _ _ Hshape).
Qed.

(** X1.  Allocation never hands out an id that is in use.  The new id is
    not among the asset ids scanned for the center, whatever the frame; and
    in a frame whose center columns are the ones loading derives, it is the
    asset id of no row at all. *)
Theorem allocation_is_fresh (df : DataFrame) (center code : string) :
  CENTERS_DICT_REV !! center = Some code →
  (new_asset_id df code ∉ existing_ids df code)
  ∧ ((∀ r, r ∈ df → with_center_columns r = r) →
     new_asset_id df code ∉ (Asset_ID <$> df)).
Proof.
  intros Hcode. split; [apply new_asset_id_not_scanned|].
  intros Hloaded. by eapply new_asset_id_unused.
Qed.


Section Devices.
Context `{External}.

(** X3.  A form that lacks the equipment name, the center or the department
    is rejected: the handler shows one validation message and ends, with the
    session frame and the disk untouched and nothing saved. *)
Theorem add_device_rejects_incomplete_form (form : DeviceForm) (w : World) :
  form_equipment_name form = "" ∨ form_center form = "" ∨ form_department form = "" →
  add_device form w
  = (inr (),
     mkWorld (clock w) (session_df w) (disk w)
       (ui w ++ [Error "⚠️ يرجى ملء جميع الحقول المطلوبة (*)"])).
Proof.
  intros Hempty. unfold add_device, bind, get_df.
  assert (Py.truthy (form_equipment_name form) && Py.truthy (form_center form)
          && Py.truthy (form_department form) = false) as ->; [|reflexivity].
  unfold Py.truthy.
  destruct Hempty as [-> | [-> | ->]]; cbn [bool_decide decide_rel];
    rewrite ?andb_false_r; try reflexivity.
  all: rewrite (bool_decide_eq_true_2 ("" = "")) by done; cbn [negb];
    by rewrite ?andb_false_r.
Qed.


Lemma delete_device_run (asset_id : string) (w : World) (idx : nat) (dev : Row) :
  asset_id ≠ "" →
  list_find (λ r, Asset_ID r = asset_id) (session_df w) = Some (idx, dev) →
  delete_device asset_id true w =
    let df' := filter (λ r, Asset_ID r ≠ asset_id) (session_df w) in
    match to_excel (drop_center_columns df') data_file (disk w) with
    | (None, d) =>
        (inl RerunException,
         mkWorld (clock w) df' d (ui w ++ [Success "✅ تم حذف الجهاز بنجاح!"]))
    | (Some msg, d) =>
        (inr (),
         mkWorld (clock w) df' d
           ((ui w ++ [Error ("خطأ في حفظ البيانات: " +:+ msg)])
            ++ [Error "❌ فشل حذف الجهاز"]))
    end.
Proof.
  intros Hid%truthy_nonempty Hfind.
  unfold delete_device. rewrite Hid. cbn [negb].
  unfold bind, get_df. rewrite Hfind. cbv beta iota zeta.
  unfold put_df. cbn [session_df clock disk ui]. rewrite save_data_run.
  cbn [session_df clock disk ui].
  destruct (to_excel _ _ _) as [[msg|] d]; reflexivity.
Qed.

(** X5.  Deleting needs the confirmation: without it the handler changes
    nothing at all.  With it, every row carrying the chosen asset id leaves
    the session frame and every other row stays, in order, whether or not
    the save succeeds; the id is then scanned for no center. *)
Theorem delete_device_effect (asset_id : string) (w : World) (idx : nat) (dev : Row) :
  asset_id ≠ "" →
  list_find (λ r, Asset_ID r = asset_id) (session_df w) = Some (idx, dev) →
  delete_device asset_id false w = (inr (), w)
  ∧ let df' := session_df (delete_device asset_id true w).2 in
    (∀ r, r ∈ df' ↔ r ∈ session_df w ∧ Asset_ID r ≠ asset_id)
    ∧ df' `sublist_of` session_df w
    ∧ (length df' < length (session_df w))%nat
    ∧ ∀ code, asset_id ∉ existing_ids df' code.
Proof.
  intros Hne Hfind. split.
  { unfold delete_device. rewrite (truthy_nonempty _ Hne). cbn [negb].
    unfold bind, get_df. by rewrite Hfind. }
  intros df'.
  assert (Hdf : df' = filter (λ r, Asset_ID r ≠ asset_id) (session_df w)).
  { subst df'. rewrite (delete_device_run _ _ _ _ Hne Hfind). cbv zeta.
    destruct (to_excel _ _ _) as [[msg|] d]; reflexivity. }
  rewrite Hdf.
  split; [intros r; rewrite list_elem_of_filter; tauto|].
  split; [apply sublist_filter|]. split.
  - apply list_find_Some in Hfind as (Hidx & Hdev & _).
    apply list_elem_of_lookup_2 in Hidx.
    apply (length_filter_lt _ _ dev); [done|]. by intros Hn.
  - intros code (r & [Hr _]%list_elem_of_filter & _ & Hid)%elem_of_existing_ids.
    by apply Hr.
Qed.

(** X6.  Asset-id numbers are reused.  If the device that received the
    newest id of a center is deleted again, the next device added for that
    center receives the very same id. *)
Theorem delete_newest_reuses_id (df : DataFrame) (form : DeviceForm) (code : string) :
  let id := new_asset_id df code in
  let after_add := df ++ [new_row form code id] in
  let after_delete := filter (λ r, Asset_ID r ≠ id) after_add in
  new_asset_id after_add code ≠ id
  ∧ new_asset_id after_delete code = id.
Proof.
  intros id after_add after_delete. split.
  { subst id after_add. intros Heq.
    pose proof (new_asset_id_tail (df ++ [new_row form code (new_asset_id df code)]) code) as H1.
    rewrite Heq, new_asset_id_tail in H1.
    rewrite existing_ids_app, existing_ids_new_row, decide_True in H1 by done.
    rewrite max_asset_number_snoc, new_asset_id_tail in H1.
    pose proof (max_asset_number_nonneg (existing_ids df code)).
    injection H1. lia. }
  assert (Hids : existing_ids after_delete code = existing_ids df code).
  { subst after_delete after_add. unfold existing_ids, select.
    rewrite filter_app, filter_cons, filter_nil.
    rewrite (decide_False (P := Asset_ID (new_row form code id) ≠ id))
      by (intros Hn; by apply Hn).
    rewrite app_nil_r, list_filter_filter.
    f_equal. apply filter_ext_in. intros r Hin. split; [by intros [? _]|].
    intros Hsel. split; [done|]. intros Hid.
    apply (new_asset_id_not_scanned df code). apply elem_of_existing_ids.
    exists r. split; [done|]. split; [|done].
    by apply bool_decide_unpack in Hsel. }
  unfold new_asset_id at 1. by rewrite Hids.
Qed.

Lemma update_device_run (asset_id : string) (form : EditForm) (w : World)
    (idx : nat) (dev : Row) :
  asset_id ≠ "" →
  list_find (λ r, Asset_ID r = asset_id) (session_df w) = Some (idx, dev) →
  update_device asset_id form w =
    let df' := <[idx := edited_row form dev]> (session_df w) in
    match to_excel (drop_center_columns df') data_file (disk w) with
    | (None, d) =>
        (inl RerunException,
         mkWorld (clock w) df' d (ui w ++ [Success "✅ تم حفظ التعديلات بنجاح!"]))
    | (Some msg, d) =>
        (inr (),
         mkWorld (clock w) df' d
           ((ui w ++ [Error ("خطأ في حفظ البيانات: " +:+ msg)])
            ++ [Error "❌ فشل حفظ التعديلات"]))
    end.
Proof.
  intros Hid%truthy_nonempty Hfind.
  pose proof Hfind as (Hidx & _ & _)%list_find_Some.
  unfold update_device. rewrite Hid. cbn [negb].
  unfold bind, get_df. rewrite Hfind. cbv beta iota zeta.
  unfold loc_set. cbn [session_df clock disk ui].
  rewrite !list_alter_alter_eq.
  rewrite (alter_as_insert _ _ _ _ Hidx).
  rewrite save_data_run. cbn [session_df clock disk ui].
  change ((_ ∘ _) dev) with (edited_row form dev).
  destruct (to_excel _ _ _) as [[msg|] d]; reflexivity.
Qed.

(** X7.  Saving an edit rewrites seven columns of the first row with the
    chosen asset id and nothing else: the other ten columns of that row, all
    seventeen of every other row and the row count are as before.  In
    particular a changed interval does
    not move the next-maintenance date: a maintained device that was on
    schedule is off schedule after its interval has been edited to another
    value. *)
Theorem update_device_keeps_dates (asset_id : string) (form : EditForm) (w : World)
    (idx : nat) (dev : Row) :
  asset_id ≠ "" →
  list_find (λ r, Asset_ID r = asset_id) (session_df w) = Some (idx, dev) →
  let df' := session_df (update_device asset_id form w).2 in
  length df' = length (session_df w)
  ∧ (∀ j, j ≠ idx → df' !! j = session_df w !! j)
  ∧ ∃ row',
      df' !! idx = Some row'
      ∧ Scientific_Equipment_Name row' = Some (edit_equipment_name form)
      ∧ Manufacturer row' = Some (edit_manufacturer form)
      ∧ Model row' = Some (edit_model form)
      ∧ Device_Status row' = edit_device_status form
      ∧ Priority row' = edit_priority form
      ∧ Maintenance_Interval_Days row' = edit_maintenance_interval form
      ∧ Notes row' = Some (edit_notes form)
      ∧ Next_Maintenance row' = Next_Maintenance dev
      ∧ Last_Maintenance row' = Last_Maintenance dev
      ∧ Installation_Date row' = Installation_Date dev
      ∧ Asset_ID row' = Asset_ID dev
      ∧ Center_Code row' = Center_Code dev
      ∧ Center_Name row' = Center_Name dev
      ∧ Scientific_Department row' = Scientific_Department dev
      ∧ Serial_No row' = Serial_No dev
      ∧ PPM_Done row' = PPM_Done dev
      ∧ Status row' = Status dev
      ∧ (is_Some (Last_Maintenance dev) → on_schedule dev →
         edit_maintenance_interval form ≠ Maintenance_Interval_Days dev →
         ¬ on_schedule row').
Proof.
  intros Hne Hfind df'.
  pose proof Hfind as (Hidx & _ & _)%list_find_Some.
  assert (Hdf : df' = <[idx := edited_row form dev]> (session_df w)).
  { subst df'. rewrite (update_device_run _ _ _ _ _ Hne Hfind). cbv zeta.
    destruct (to_excel _ _ _) as [[msg|] d]; reflexivity. }
  rewrite Hdf. split; [apply length_insert|].
  split; [intros j Hj; by apply list_lookup_insert_ne|].
  exists (edited_row form dev). split.
  { apply list_lookup_insert_eq. by eapply lookup_lt_Some. }
  do 17 (split; [reflexivity|]).
  intros [last Hlast] Hsched Hchanged Hsched'.
  specialize (Hsched last Hlast). specialize (Hsched' last Hlast).
  cbn [edited_row Next_Maintenance Maintenance_Interval_Days] in Hsched'.
  rewrite Hsched in Hsched'. injection Hsched' as Heq.
  unfold Pd.timedelta, Pd.ns_per_day in Heq. lia.
Qed.

(** X8.  Logging a maintenance and applying an interval to an equipment type
    keep every maintained device on schedule: if the next maintenance of
    every row with a last maintenance is that date plus its interval, this
    still holds after either handler.  And, with no assumption on the frame,
    after applying an interval the rows of that equipment type are on
    schedule and carry the new interval, whatever they were before. *)
Theorem log_and_apply_keep_schedule (w : World) :
  (Forall on_schedule (session_df w) →
   (∀ asset_id form idx dev,
      asset_id ≠ "" →
      list_find (λ r, Asset_ID r = asset_id) (session_df w) = Some (idx, dev) →
      Forall on_schedule (session_df (log_maintenance asset_id form w).2))
   ∧ (∀ selected_equipment new_interval,
        selected_equipment ≠ "" →
        Forall on_schedule
          (session_df (apply_interval selected_equipment new_interval w).2)))
  ∧ (∀ selected_equipment new_interval r,
       selected_equipment ≠ "" →
       r ∈ session_df (apply_interval selected_equipment new_interval w).2 →
       Scientific_Equipment_Name r = Some selected_equipment →
       on_schedule r ∧ Maintenance_Interval_Days r = new_interval).
Proof.
  assert (Hwith : ∀ sel N r, (on_schedule r ∨ Scientific_Equipment_Name r = Some sel) →
            on_schedule (with_interval sel N r)
            ∧ (Scientific_Equipment_Name (with_interval sel N r) = Some sel →
               Maintenance_Interval_Days (with_interval sel N r) = N)).
  { intros sel N r Hr. unfold with_interval, col_eq, reschedule.
    case_bool_decide as Hsel.
    - cbn [set_Maintenance_Interval_Days Last_Maintenance].
      destruct (Last_Maintenance r) as [last|] eqn:Hlast.
      + split; [|done]. intros l Hl. cbn in Hl |- *. by simplify_eq.
      + split; [|done]. intros l Hl. cbn in Hl. congruence.
    - destruct Hr as [Hr|Hr]; [|done]. split; [done|]. intros ?. done. }
  split; [intros Hall; split|].
  - intros asset_id form idx dev Hne Hfind.
    assert (Hdf : session_df (log_maintenance asset_id form w).2
                  = <[idx := logged_row form dev]> (session_df w)).
    { rewrite (log_maintenance_run _ _ _ _ _ Hne Hfind). cbv zeta.
      destruct (to_excel _ _ _) as [[msg|] d]; reflexivity. }
    rewrite Hdf. apply Forall_insert; [done|].
    intros last Hlast. cbn in Hlast |- *. by simplify_eq.
  - intros sel N Hsel. rewrite (apply_interval_df _ _ _ Hsel).
    apply Forall_fmap. eapply Forall_impl; [exact Hall|].
    intros r Hr. apply Hwith. by left.
  - intros sel N r Hsel Hin Hname.
    rewrite (apply_interval_df _ _ _ Hsel) in Hin.
    apply list_elem_of_fmap in Hin as (r0 & -> & Hin0).
    assert (Hname0 : Scientific_Equipment_Name r0 = Some sel).
    { revert Hname. unfold with_interval, col_eq. case_bool_decide; [done|].
      intros; done. }
    destruct (Hwith sel N r0 (or_intror Hname0)) as [Hs Hi]. split; [done|].
    by apply Hi.
Qed.

End Devices.

(** ** Further properties: statuses, metrics and the schedule *)

(** Whole days and timestamps: the day count is below [n] exactly when the
    difference is below [n] days. *)
Lemma days_lt_iff (td n : Z) : Pd.days td < n ↔ td < Pd.timedelta n.
Proof.
  pose proof (days_floor td). unfold Pd.timedelta, Pd.ns_per_day in *.
  split; intros; nia.
Qed.

Lemma days_le_iff (td n : Z) : Pd.days td ≤ n ↔ td < Pd.timedelta (n + 1).
Proof. rewrite <- days_lt_iff. lia. Qed.

Lemma status_at_cases (now : Pd.Timestamp) (row : Row) :
  match Next_Maintenance row with
  | None => status_at now row = (Undetermined, icon_white)
  | Some next =>
      (next < now ∧ status_at now row = (Overdue, icon_red))
      ∨ (now ≤ next < now + Pd.timedelta 8 ∧ status_at now row = (Urgent, icon_orange))
      ∨ (now + Pd.timedelta 8 ≤ next < now + Pd.timedelta 31
         ∧ status_at now row = (Upcoming, icon_yellow))
      ∨ (now + Pd.timedelta 31 ≤ next ∧ status_at now row = (Good, icon_green))
  end.
Proof.
  unfold status_at. destruct (Next_Maintenance row) as [next|]; [|done]. cbv zeta.
  pose proof (days_lt_iff (next - now) 0) as H0.
  pose proof (days_le_iff (next - now) 7) as H7.
  pose proof (days_le_iff (next - now) 30) as H30.
  change (Pd.timedelta 0) with 0 in H0.
  change (7 + 1) with 8 in H7. change (30 + 1) with 31 in H30.
  repeat case_bool_decide; [left|right; left|right; right; left|right; right; right];
    (split; [lia|reflexivity]).
Qed.

Lemma length_filter_disjoint {A} (P Q R : A → Prop)
    `{!∀ x, Decision (P x), !∀ x, Decision (Q x), !∀ x, Decision (R x)} (l : list A) :
  (∀ x, P x → Q x → False) → (∀ x, P x → R x) → (∀ x, Q x → R x) →
  (length (filter P l) + length (filter Q l) ≤ length (filter R l))%nat.
Proof.
  intros Hdisj HP HQ. induction l as [|a l IH]; [done|].
  rewrite !filter_cons.
  pose proof (Hdisj a). pose proof (HP a). pose proof (HQ a).
  destruct (decide (P a)), (decide (Q a)), (decide (R a)); simpl; first [lia | tauto].
Qed.

Section Status.
Context `{External}.

Lemma calculate_maintenance_status_at (row : Row) (w : World) :
  calculate_maintenance_status row w = (inr (status_at (clock w) row), w).
Proof. apply calculate_maintenance_status_run. Qed.

Lemma map_rows_pure {B} (f : Row → App B) (g : Row → B) (df : DataFrame) (w : World) :
  (∀ r, f r w = (inr (g r), w)) → map_rows f df w = (inr (g <$> df), w).
Proof.
  intros Hf. induction df as [|r df IH]; [done|].
  cbn [map_rows]. erewrite bind_run by apply Hf.
  erewrite bind_run by exact IH. reflexivity.
Qed.

(** X9.  Waiting never improves a status.  For one row evaluated at two
    clock readings, the later reading gives a label at least as pressing as
    the earlier one, in the order Good, Upcoming, Urgent, Overdue; a row
    without a next-maintenance date stays Undetermined. *)
Theorem status_never_improves (row : Row) (w1 w2 : World) :
  clock w1 ≤ clock w2 →
  ∃ label1 icon1 label2 icon2,
    calculate_maintenance_status row w1 = (inr (label1, icon1), w1)
    ∧ calculate_maintenance_status row w2 = (inr (label2, icon2), w2)
    ∧ severity label1 ≤ severity label2
    ∧ (label1 = Undetermined ↔ label2 = Undetermined)
    ∧ (label1 = Overdue → label2 = Overdue).
Proof.
  intros Hclock. rewrite !calculate_maintenance_status_at.
  pose proof (status_at_cases (clock w1) row) as H1.
  pose proof (status_at_cases (clock w2) row) as H2.
  destruct (Next_Maintenance row) as [next|].
  - unfold Pd.timedelta, Pd.ns_per_day in *.
    destruct H1 as [[? ->]|[[? ->]|[[? ->]|[? ->]]]],
             H2 as [[? ->]|[[? ->]|[[? ->]|[? ->]]]];
      try lia; eexists _, _, _, _;
      (split; [reflexivity|]); (split; [reflexivity|]);
      (split; [by vm_compute|]); (split; [split; intros Heq; discriminate Heq|]);
      first [done | intros Heq; discriminate Heq].
  - rewrite H1, H2. eexists _, _, _, _. by repeat split.
Qed.


Lemma overdue_mask_label (now : Pd.Timestamp) (r : Row) :
  Pd.lt (Next_Maintenance r) now && Pd.notna (Next_Maintenance r) = true
  ↔ (status_at now r).1 = Overdue.
Proof.
  pose proof (status_at_cases now r) as Hc. unfold Pd.lt, Pd.notna, Pd.isna.
  destruct (Next_Maintenance r) as [next|]; simpl.
  - rewrite andb_true_r, bool_decide_eq_true.
    unfold Pd.timedelta, Pd.ns_per_day in *.
    destruct Hc as [[? Hs]|[[? Hs]|[[? Hs]|[? Hs]]]]; rewrite Hs; cbn [fst];
      split; intros Hx; first [reflexivity | lia | exfalso; lia | discriminate Hx].
  - rewrite Hc. cbn [fst]. split; intros Hx; discriminate Hx.
Qed.


Lemma show_dashboard_board (selected_centers selected_departments status_filter : list string)
    (w : World) :
  let df_filtered :=
    apply_filters selected_centers selected_departments status_filter (session_df w) in
  ∃ board,
    show_dashboard selected_centers selected_departments status_filter w = (inr board, w)
    ∧ total board = length df_filtered
    ∧ working board = length (select (λ r, bool_decide (Device_Status r = Working)) df_filtered)
    ∧ broken board = length (select (λ r, bool_decide (Device_Status r = Broken)) df_filtered)
    ∧ overdue board
      = length (select (λ r, Pd.lt (Next_Maintenance r) (clock w)
                             && Pd.notna (Next_Maintenance r)) df_filtered)
    ∧ urgent board
      = length (select (λ r, Pd.days_until_le (Next_Maintenance r) (clock w) 7
                             && Pd.ge (Next_Maintenance r) (clock w)
                             && Pd.notna (Next_Maintenance r)) df_filtered)
    ∧ maintenance_status board = (λ r, (status_at (clock w) r).1) <$> df_filtered.
Proof.
  intros df_filtered. unfold show_dashboard.
  do 4 (erewrite bind_run by reflexivity).
  erewrite bind_run.
  2:{ apply (map_rows_pure _ (λ r, (status_at (clock w) r).1)). intros r.
      erewrite bind_run by apply calculate_maintenance_status_at. reflexivity. }
  erewrite bind_run by reflexivity.
  unfold ret. eexists. split; [reflexivity|]. by repeat split.
Qed.

(** The status of a row with a next date at a clock reading [later], from
    where the date lay at an earlier reading [now]. *)
Lemma status_at_later (now later next : Pd.Timestamp) (r : Row) :
  Next_Maintenance r = Some next →
  now ≤ later →
  (next < now → status_at later r = (Overdue, icon_red))
  ∧ (next ≤ now + Pd.timedelta 7 →
     status_at later r = (Urgent, icon_orange) ∨ status_at later r = (Overdue, icon_red))
  ∧ (next < now + Pd.timedelta 8 →
     status_at later r = (Urgent, icon_orange) ∨ status_at later r = (Overdue, icon_red))
  ∧ (next ≤ now + Pd.timedelta 30 →
     status_at later r = (Urgent, icon_orange) ∨ status_at later r = (Upcoming, icon_yellow)
     ∨ status_at later r = (Overdue, icon_red))
  ∧ (status_at later r).2 ≠ icon_white.
Proof.
  intros Hnext Hlater.
  pose proof (status_at_cases later r) as Hc. rewrite Hnext in Hc.
  unfold Pd.timedelta, Pd.ns_per_day in *.
  destruct Hc as [[? ->]|[[? ->]|[[? ->]|[? ->]]]];
    (split; [intros; first [reflexivity | exfalso; lia]|]);
    (split; [intros; first [by left | by right | exfalso; lia]|]);
    (split; [intros; first [by left | by right | exfalso; lia]|]);
    (split; [intros; first [by left | by right; left | by right; right | exfalso; lia]|]);
    cbn [snd]; intros Heq; discriminate Heq.
Qed.


(** X11.  The status filter bounds the device-status metrics.  When the
    filter is in use and does not list the broken status, the broken metric
    is zero whatever the data; when it lists only the working status, every
    filtered device counts as working. *)
Theorem dashboard_status_filter_hides_broken
    (selected_centers selected_departments status_filter : list string) (w : World) :
  status_filter ≠ [] →
  ∃ board,
    show_dashboard selected_centers selected_departments status_filter w = (inr board, w)
    ∧ (Broken ∉ status_filter → broken board = 0%nat)
    ∧ (status_filter = [Working] → working board = total board).
Proof.
  intros Hfilter.
  destruct (show_dashboard_board selected_centers selected_departments status_filter w)
    as (board & Hrun & Htotal & Hworking & Hbroken & _).
  exists board. split; [done|].
  set (df_filtered := apply_filters _ _ _ _) in *.
  assert (Hin : ∀ r, r ∈ df_filtered → Device_Status r ∈ status_filter).
  { subst df_filtered. unfold apply_filters.
    destruct status_filter as [|s0 rest]; [done|].
    intros r [Hr _]%list_elem_of_filter. by apply bool_decide_unpack in Hr. }
  split.
  - intros Hnot. rewrite Hbroken. unfold select.
    rewrite filter_none; [done|].
    intros r Hr Hb%bool_decide_unpack.
    apply Hnot. rewrite <- Hb. by apply Hin.
  - intros ->. rewrite Hworking, Htotal. unfold select. f_equal.
    apply filter_all. intros r Hr. apply bool_decide_pack.
    specialize (Hin r Hr). by apply list_elem_of_singleton in Hin.
Qed.

Lemma in_time_range_overdue (today : Pd.Timestamp) (r : Row) :
  in_time_range range_overdue today r = Pd.lt (Next_Maintenance r) today.
Proof. reflexivity. Qed.

Lemma in_time_range_within (time_range : string) (n : Z) (today : Pd.Timestamp) (r : Row) :
  (time_range, n) ∈ [(range_week, 7); (range_month, 30); (range_quarter, 90)] →
  in_time_range time_range today r
  = Pd.ge (Next_Maintenance r) today && Pd.le (Next_Maintenance r) (today + Pd.timedelta n).
Proof.
  intros Hin. repeat (apply elem_of_cons in Hin as [[= -> ->]|Hin]; [reflexivity|]).
  by apply elem_of_nil in Hin.
Qed.

Lemma show_schedule_run (time_range : string) (priority_filter : list string)
    (center_filter : string) (w : World) :
  ∃ df_schedule,
    show_schedule time_range priority_filter center_filter w
    = (inr (merge_sort (λ a b, schedule_le (schedule_row a) (schedule_row b))
              ((λ r, mkScheduleRow r (status_at (clock w) r).2
                       ((λ next, Pd.days (next - clock w)) <$> Next_Maintenance r))
                 <$> df_schedule)), w)
    ∧ ∀ r, r ∈ df_schedule ↔
        r ∈ session_df w
        ∧ is_Some (Next_Maintenance r)
        ∧ in_time_range time_range (clock w) r = true
        ∧ (priority_filter = [] ∨ Priority r ∈ priority_filter)
        ∧ (center_filter = all_option ∨ Center_Name r = Some center_filter).
Proof.
  unfold show_schedule.
  do 2 (erewrite bind_run by reflexivity).
  eexists. split.
  { erewrite bind_run.
    2:{ apply (map_rows_pure _
                 (λ r, mkScheduleRow r (status_at (clock w) r).2
                         ((λ next, Pd.days (next - clock w)) <$> Next_Maintenance r))).
        intros r. erewrite bind_run by apply calculate_maintenance_status_at.
        reflexivity. }
    reflexivity. }
  intros r. unfold select.
  assert (Hbase : ∀ r, r ∈ filter (λ r, in_time_range time_range (clock w) r)
                          (filter (λ r, Pd.notna (Next_Maintenance r)) (session_df w))
                    ↔ r ∈ session_df w ∧ is_Some (Next_Maintenance r)
                      ∧ in_time_range time_range (clock w) r = true).
  { intros r0. rewrite !list_elem_of_filter, Is_true_true.
    unfold Pd.notna, Pd.isna. destruct (Next_Maintenance r0); simpl.
    - split; [intros (? & _ & ?); eauto|intros (? & _ & ?); eauto].
    - split; [intros (_ & [] & _)|intros (_ & [? [=]] & _)]. }
  assert (Hprio : ∀ r, r ∈ match priority_filter with
                          | [] => filter (λ r, in_time_range time_range (clock w) r)
                                    (filter (λ r, Pd.notna (Next_Maintenance r)) (session_df w))
                          | _ :: _ =>
                              filter (λ r, bool_decide (Priority r ∈ priority_filter))
                                (filter (λ r, in_time_range time_range (clock w) r)
                                   (filter (λ r, Pd.notna (Next_Maintenance r)) (session_df w)))
                          end
                    ↔ (r ∈ session_df w ∧ is_Some (Next_Maintenance r)
                       ∧ in_time_range time_range (clock w) r = true)
                      ∧ (priority_filter = [] ∨ Priority r ∈ priority_filter)).
  { intros r0. destruct priority_filter as [|p rest].
    - rewrite Hbase. split; [by auto|by intros [? _]].
    - rewrite list_elem_of_filter, Hbase. split.
      + intros [Hp%bool_decide_unpack ?]. auto.
      + intros [? [[=]|Hp]]. split; [by apply bool_decide_pack|done]. }
  case_bool_decide as Hcenter.
  - rewrite Hprio. split; [intros [(?&?&?) ?]; by auto 10|].
    intros (?&?&?&?&_). by auto.
  - rewrite list_elem_of_filter, Hprio. unfold col_eq. split.
    + intros [Hc%bool_decide_unpack [(?&?&?) ?]]. by auto 10.
    + intros (?&?&?&?&[Hall|Hc]); [done|]. split; [by apply bool_decide_pack|by auto].
Qed.

(** X12.  What the range of the schedule table says about its lines,
    however the clock moves between the reads.  The program reads the clock
    once for the range and the days until due, and again for the icon of
    every line.  Every line of the table is a row of the session frame with
    a next-maintenance date that passes the chosen filters, and carries the
    whole days from the range's reading to that date: negative under the
    overdue range, between 0 and 7, 30 or 90 under the other three.  At the
    range's reading and at every later one the evaluator's icon for the row
    is red under the overdue range, orange or red under the one-week range,
    orange, yellow or red under the one-month range, and never white; the
    line's own icon is within the same bounds. *)
Theorem schedule_ranges_bound_statuses (time_range : string)
    (priority_filter : list string) (center_filter : string) (w : World) :
  ∃ lines,
    show_schedule time_range priority_filter center_filter w = (inr lines, w)
    ∧ Forall (λ line,
        let r := schedule_row line in
        r ∈ session_df w
        ∧ (priority_filter = [] ∨ Priority r ∈ priority_filter)
        ∧ (center_filter = all_option ∨ Center_Name r = Some center_filter)
        ∧ ∃ next days_until,
            Next_Maintenance r = Some next
            ∧ Days_Until line = Some days_until
            ∧ days_until = Pd.days (next - clock w)
            ∧ (time_range = range_overdue →
               next < clock w ∧ days_until < 0 ∧ Status_Icon line = icon_red)
            ∧ (time_range = range_week →
               clock w ≤ next ≤ clock w + Pd.timedelta 7 ∧ 0 ≤ days_until ≤ 7
               ∧ Status_Icon line ∈ [icon_orange; icon_red])
            ∧ (time_range = range_month →
               clock w ≤ next ≤ clock w + Pd.timedelta 30 ∧ 0 ≤ days_until ≤ 30
               ∧ Status_Icon line ∈ [icon_orange; icon_yellow; icon_red])
            ∧ (time_range = range_quarter →
               clock w ≤ next ≤ clock w + Pd.timedelta 90 ∧ 0 ≤ days_until ≤ 90)
            ∧ Status_Icon line ≠ icon_white
            ∧ ∀ later : World,
                clock w ≤ clock later →
                ∃ label icon,
                  calculate_maintenance_status r later = (inr (label, icon), later)
                  ∧ (time_range = range_overdue → label = Overdue ∧ icon = icon_red)
                  ∧ (time_range = range_week →
                     (label = Urgent ∧ icon = icon_orange)
                     ∨ (label = Overdue ∧ icon = icon_red))
                  ∧ (time_range = range_month →
                     icon ∈ [icon_orange; icon_yellow; icon_red])
                  ∧ icon ≠ icon_white) lines.
Proof.
  destruct (show_schedule_run time_range priority_filter center_filter w)
    as (df_schedule & Hrun & Hmem).
  eexists. split; [exact Hrun|].
  rewrite merge_sort_Permutation. apply Forall_fmap, Forall_forall.
  intros r (Hin & [next Hnext] & Hrange & Hprio & Hcenter)%Hmem.
  cbv zeta. cbn [schedule_row Status_Icon Days_Until].
  split; [done|]. split; [done|]. split; [done|].
  exists next, (Pd.days (next - clock w)).
  split; [done|]. split; [by rewrite Hnext|]. split; [done|].
  assert (Hwithin : ∀ n, (time_range, n) ∈ [(range_week, 7); (range_month, 30);
                                             (range_quarter, 90)] →
            clock w ≤ next ≤ clock w + Pd.timedelta n
            ∧ 0 ≤ Pd.days (next - clock w) ≤ n).
  { intros n Hn. rewrite (in_time_range_within _ _ _ _ Hn), Hnext in Hrange.
    apply andb_true_iff in Hrange as [Hge%bool_decide_eq_true Hle%bool_decide_eq_true].
    split; [done|]. split.
    - assert (¬ Pd.days (next - clock w) < 0); [|lia].
      rewrite days_lt_iff. change (Pd.timedelta 0) with 0. lia.
    - apply days_le_iff. unfold Pd.timedelta, Pd.ns_per_day in *. lia. }
  assert (Hicons : ∀ later : Pd.Timestamp, clock w ≤ later →
            (time_range = range_overdue → status_at later r = (Overdue, icon_red))
            ∧ (time_range = range_week →
               status_at later r = (Urgent, icon_orange)
               ∨ status_at later r = (Overdue, icon_red))
            ∧ (time_range = range_month →
               (status_at later r).2 ∈ [icon_orange; icon_yellow; icon_red])
            ∧ (status_at later r).2 ≠ icon_white).
  { intros later Hlater.
    destruct (status_at_later (clock w) later next r Hnext Hlater)
      as (Hov & Hweek & _ & Hmonth & Hwhite).
    split; [|split; [|split; [|exact Hwhite]]].
    - intros ->. rewrite in_time_range_overdue, Hnext in Hrange.
      apply bool_decide_eq_true in Hrange. by apply Hov.
    - intros ->. destruct (Hwithin 7 ltac:(repeat constructor)) as [[_ Hle] _].
      by apply Hweek.
    - intros ->. destruct (Hwithin 30 ltac:(repeat constructor)) as [[_ Hle] _].
      rewrite !elem_of_cons.
      destruct (Hmonth Hle) as [-> |[-> | ->]]; cbn [snd]; auto. }
  destruct (Hicons (clock w) ltac:(lia)) as (Hov & Hweek & Hmonth & Hwhite).
  split; [|split; [|split; [|split; [|split; [exact Hwhite|]]]]].
  - intros ->. rewrite in_time_range_overdue, Hnext in Hrange.
    apply bool_decide_eq_true in Hrange. split; [done|].
    split; [rewrite days_lt_iff; change (Pd.timedelta 0) with 0; lia|].
    by rewrite Hov.
  - intros ->. destruct (Hwithin 7 ltac:(repeat constructor)) as [Hnx Hdays].
    split; [done|]. split; [done|]. rewrite !elem_of_cons.
    destruct (Hweek eq_refl) as [-> | ->]; cbn [snd]; auto.
  - intros ->. destruct (Hwithin 30 ltac:(repeat constructor)) as [Hnx Hdays].
    split; [done|]. split; [done|]. by apply Hmonth.
  - intros ->. by destruct (Hwithin 90 ltac:(repeat constructor)) as [Hnx Hdays].
  - intros later Hlater.
    destruct (Hicons (clock later) Hlater) as (Hov' & Hweek' & Hmonth' & Hwhite').
    exists (status_at (clock later) r).1, (status_at (clock later) r).2.
    split; [rewrite calculate_maintenance_status_at; by rewrite <- surjective_pairing|].
    split; [|split; [|split; [exact Hmonth'|exact Hwhite']]].
    + intros Hr. by rewrite (Hov' Hr).
    + intros Hr. destruct (Hweek' Hr) as [-> | ->]; [by left|by right].
Qed.

(** X13.  The one-week range of the schedule is narrower than the Urgent
    status.  A device due more than seven days but less than eight days
    after the clock reading is Urgent for the evaluator, and is in the
    dashboard's immediate-maintenance selection, yet it is on no line of the
    one-week schedule. *)
Theorem week_schedule_misses_urgent (r : Row) (next : Pd.Timestamp) (w : World) :
  r ∈ session_df w →
  Next_Maintenance r = Some next →
  clock w + Pd.timedelta 7 < next < clock w + Pd.timedelta 8 →
  calculate_maintenance_status r w = (inr (Urgent, icon_orange), w)
  ∧ needs_immediate (clock w) r
  ∧ ∀ priority_filter center_filter lines,
      show_schedule range_week priority_filter center_filter w = (inr lines, w) →
      r ∉ schedule_row <$> lines.
Proof.
  intros Hin Hnext Hgap.
  pose proof (status_at_cases (clock w) r) as Hc. rewrite Hnext in Hc.
  split; [|split].
  - rewrite calculate_maintenance_status_at.
    unfold Pd.timedelta, Pd.ns_per_day in *.
    destruct Hc as [[? ->]|[[? ->]|[[? ->]|[? ->]]]]; first [reflexivity | lia].
  - unfold needs_immediate. rewrite Hnext. apply days_le_iff.
    change (7 + 1) with 8. lia.
  - intros priority_filter center_filter lines Hlines.
    destruct (show_schedule_run range_week priority_filter center_filter w)
      as (df_schedule & Hrun & Hmem).
    rewrite Hrun in Hlines. injection Hlines as <-.
    rewrite merge_sort_Permutation, <- list_fmap_compose.
    intros (r0 & Heq & (_ & _ & Hrange & _)%Hmem)%list_elem_of_fmap.
    cbn in Heq. subst r0.
    rewrite (in_time_range_within range_week 7) in Hrange by repeat constructor.
    rewrite Hnext in Hrange.
    apply andb_true_iff in Hrange as [_ ?%bool_decide_eq_true]. lia.
Qed.

Lemma export_maintenance_report_run (df : DataFrame) (center : option string) (w : World) :
  export_maintenance_report df center w
  = (inr ((λ r, (r, (status_at (clock w) r).1))
            <$> match center with
                | Some c => if Py.truthy c then select (λ r, col_eq (Center_Name r) c) df
                            else df
                | None => df
                end), w).
Proof.
  unfold export_maintenance_report. apply map_rows_pure. intros r.
  erewrite bind_run by apply calculate_maintenance_status_at. reflexivity.
Qed.

(** X14.  What a report exports.  Every exported line pairs a row with the
    evaluator's label for it.  Without a center the report has every row of
    the frame once and in order; for a center it has exactly the rows whose
    center name is that center, so a row without a resolvable center is in
    no center report; and exporting a frame already restricted to the
    center, as the center tab does, gives the same report. *)
Theorem export_report_contents (df : DataFrame) (c : string) (w : World) :
  c ≠ "" →
  ∃ all_lines center_lines,
    export_maintenance_report df None w = (inr all_lines, w)
    ∧ export_maintenance_report df (Some c) w = (inr center_lines, w)
    ∧ all_lines.*1 = df
    ∧ (∀ r, r ∈ center_lines.*1 ↔ r ∈ df ∧ Center_Name r = Some c)
    ∧ center_lines.*1 `sublist_of` df
    ∧ Forall (λ line, ∃ icon,
                calculate_maintenance_status line.1 w = (inr (line.2, icon), w))
        (all_lines ++ center_lines)
    ∧ export_maintenance_report (select (λ r, col_eq (Center_Name r) c) df) (Some c) w
      = (inr center_lines, w)
    ∧ export_maintenance_report df (Some "") w = (inr all_lines, w).
Proof.
  intros Hc%truthy_nonempty. rewrite !export_maintenance_report_run, Hc.
  change (Py.truthy "") with false. cbv iota.
  eexists _, _. split; [reflexivity|]. split; [reflexivity|].
  rewrite <- !list_fmap_compose.
  split; [apply list_fmap_id|].
  assert (Hid : ∀ l : DataFrame,
            (fst ∘ (λ r : Row, (r, (status_at (clock w) r).1))) <$> l = l)
    by (intros l; apply list_fmap_id).
  rewrite Hid. unfold select, col_eq.
  split.
  { intros r. rewrite list_elem_of_filter. split.
    - intros [Hr%bool_decide_unpack ?]. done.
    - intros [? Hr]. split; [by apply bool_decide_pack|done]. }
  split; [apply sublist_filter|].
  split.
  { rewrite <- fmap_app. apply Forall_fmap, Forall_forall. intros r _.
    exists (status_at (clock w) r).2. cbn [fst snd].
    rewrite calculate_maintenance_status_at. by destruct (status_at (clock w) r). }
  split; [|reflexivity].
  do 3 f_equal. rewrite list_filter_filter. apply list_filter_iff. tauto.
Qed.

End Status.

(** ** Further properties: statistics, loading and saving *)

Lemma length_filter_insert {A} (P : A → Prop) `{!∀ x, Decision (P x)}
    (l : list A) (i : nat) (x y : A) :
  l !! i = Some x →
  (length (filter P (<[i := y]> l)) + (if decide (P x) then 1 else 0)
   = length (filter P l) + (if decide (P y) then 1 else 0))%nat.
Proof.
  revert i. induction l as [|a l IH]; intros [|i] Hi; simplify_eq/=.
  - rewrite !filter_cons. destruct (decide (P x)), (decide (P y)); simpl; lia.
  - rewrite !filter_cons. specialize (IH i Hi).
    destruct (decide (P a)); simpl; lia.
Qed.

Lemma with_interval_overrides (sel : string) (n m : Z) (r : Row) :
  with_interval sel m (with_interval sel n r) = with_interval sel m r.
Proof.
  unfold with_interval, col_eq, reschedule.
  destruct r as [? ? name ? ? ? ? ? ? ? ? [last|] ? ? ? ? ?];
    cbn [Scientific_Equipment_Name];
    repeat first [ case_bool_decide | progress cbn in * ];
    first [reflexivity | congruence].
Qed.

Lemma with_interval_commutes (sel1 sel2 : string) (n m : Z) (r : Row) :
  sel1 ≠ sel2 →
  with_interval sel1 n (with_interval sel2 m r)
  = with_interval sel2 m (with_interval sel1 n r).
Proof.
  intros Hne. unfold with_interval, col_eq, reschedule.
  destruct r as [? ? name ? ? ? ? ? ? ? ? [last|] ? ? ? ? ?];
    cbn [Scientific_Equipment_Name];
    repeat first [ case_bool_decide | progress cbn in * ];
    first [reflexivity | congruence].
Qed.

Lemma with_center_columns_idempotent (r : Row) :
  with_center_columns (with_center_columns r) = with_center_columns r.
Proof. by destruct r. Qed.

Lemma with_center_columns_drop (r : Row) :
  with_center_columns r = r → with_center_columns (set_Center None None r) = r.
Proof. intros Hr. rewrite <- Hr at 2. by destruct r. Qed.

Section Persistence.
Context `{External}.

Lemma maintenance_statistics_run (w : World) :
  maintenance_statistics w
  = (inr {| completed := length (select (λ r, Pd.notna (Last_Maintenance r)) (session_df w));
            pending := length (select (λ r, Pd.lt (Next_Maintenance r) (clock w)
                                            && Pd.notna (Next_Maintenance r)) (session_df w));
            upcoming := length (select (λ r, Pd.ge (Next_Maintenance r) (clock w)
                                             && Pd.le (Next_Maintenance r)
                                                  (clock w + Pd.timedelta 30)
                                             && Pd.notna (Next_Maintenance r))
                                  (session_df w)) |}, w).
Proof. reflexivity. Qed.

(** X15.  The statistics tab counts each device at most once.  No device is
    both pending and upcoming, so the two counters together do not exceed
    the number of devices with a next-maintenance date; the pending counter
    is the number of devices the evaluator labels Overdue, and it equals the
    overdue metric of the unfiltered dashboard. *)
Theorem statistics_count_once (w : World) :
  ∃ stats board,
    maintenance_statistics w = (inr stats, w)
    ∧ show_dashboard [] [] [] w = (inr board, w)
    ∧ (pending stats + upcoming stats
       ≤ length (filter (λ r, is_Some (Next_Maintenance r)) (session_df w)))%nat
    ∧ (completed stats ≤ length (session_df w))%nat
    ∧ (∃ counted,
         pending stats = length counted
         ∧ counted `sublist_of` session_df w
         ∧ ∀ r, r ∈ counted ↔
             r ∈ session_df w
             ∧ ∃ icon, calculate_maintenance_status r w = (inr (Overdue, icon), w))
    ∧ pending stats = overdue board.
Proof.
  destruct (show_dashboard_board [] [] [] w)
    as (board & Hboard & _ & _ & _ & Hoverdue & _).
  rewrite maintenance_statistics_run. eexists _, board.
  split; [reflexivity|]. split; [exact Hboard|].
  cbn [pending upcoming completed]. unfold select.
  split; [|split; [apply length_filter|split; [|by rewrite Hoverdue]]].
  - apply length_filter_disjoint; intros r; unfold Pd.lt, Pd.ge, Pd.le, Pd.notna, Pd.isna;
      destruct (Next_Maintenance r) as [next|]; simpl; rewrite ?andb_true_r;
      try (by intros []); try (by eauto).
    intros Hlt%bool_decide_unpack [Hge%bool_decide_unpack _]%andb_True. lia.
  - eexists. split; [reflexivity|]. split; [apply sublist_filter|].
    intros r. rewrite list_elem_of_filter, Is_true_true, overdue_mask_label. split.
    + intros [Hl ?]. split; [done|]. exists (status_at (clock w) r).2.
      rewrite calculate_maintenance_status_at, <- Hl. by rewrite <- surjective_pairing.
    + intros [? [icon Hr]]. split; [|done].
      rewrite calculate_maintenance_status_at in Hr. by injection Hr as ->.
Qed.

(** X16.  Logging a maintenance is counted as completed exactly once.  After
    a log on a device that had never been maintained the completed counter is
    one higher; after a log on a device that already had a last maintenance
    it is unchanged. *)
Theorem log_maintenance_counts_completed (asset_id : string) (form : MaintenanceForm)
    (w : World) (idx : nat) (dev : Row) :
  asset_id ≠ "" →
  list_find (λ r, Asset_ID r = asset_id) (session_df w) = Some (idx, dev) →
  ∃ before after,
    maintenance_statistics w = (inr before, w)
    ∧ maintenance_statistics (log_maintenance asset_id form w).2
      = (inr after, (log_maintenance asset_id form w).2)
    ∧ completed after
      = (completed before + (if Last_Maintenance dev is Some _ then 0 else 1))%nat.
Proof.
  intros Hne Hfind.
  pose proof Hfind as (Hidx & _ & _)%list_find_Some.
  rewrite !maintenance_statistics_run. eexists _, _.
  split; [reflexivity|]. split; [reflexivity|].
  cbn [completed].
  assert (Hdf : session_df (log_maintenance asset_id form w).2
                = <[idx := logged_row form dev]> (session_df w)).
  { rewrite (log_maintenance_run _ _ _ _ _ Hne Hfind). cbv zeta.
    destruct (to_excel _ _ _) as [[msg|] d]; reflexivity. }
  rewrite Hdf. unfold select.
  pose proof (length_filter_insert (λ r, Pd.notna (Last_Maintenance r))
                (session_df w) idx dev (logged_row form dev) Hidx) as Hlen.
  cbn [logged_row Last_Maintenance] in Hlen.
  unfold Pd.notna, Pd.isna in *.
  destruct (Last_Maintenance dev); simpl in Hlen |- *; lia.
Qed.

Lemma for_each_show (elements : list Message) (w : World) :
  for_each elements show w
  = (inr (), mkWorld (clock w) (session_df w) (disk w) (ui w ++ elements)).
Proof.
  revert w. induction elements as [|m elements IH]; intros w; cbn [for_each].
  - unfold ret. rewrite app_nil_r. by destruct w.
  - unfold bind, show. rewrite IH. cbn [clock session_df disk ui].
    by rewrite <- app_assoc.
Qed.

Lemma load_data_hit (file_path : string) (cache : Cache) (call : CachedCall) (w : World) :
  cache !! file_path = Some call →
  load_data file_path cache w
  = (inr (cached_value call, cache),
     mkWorld (clock w) (session_df w) (disk w) (ui w ++ cached_elements call)).
Proof.
  intros Hhit. unfold load_data. rewrite Hhit.
  unfold bind. by rewrite for_each_show.
Qed.

Lemma load_data_miss (file_path : string) (cache : Cache) (w : World) :
  cache !! file_path = None →
  load_data file_path cache w
  = match read_excel file_path (disk w) with
    | inl msg =>
        let shown := [Error ("خطأ في تحميل البيانات: " +:+ msg)] in
        (inr (None, <[file_path := mkCachedCall None shown]> cache),
         mkWorld (clock w) (session_df w) (disk w) (ui w ++ shown))
    | inr df =>
        let loaded := with_center_columns <$> df in
        (inr (Some loaded, <[file_path := mkCachedCall (Some loaded) []]> cache), w)
    end.
Proof.
  intros Hmiss. unfold load_data. rewrite Hmiss.
  unfold load_data_body, try_except, bind, pd_read_excel.
  destruct (read_excel file_path (disk w)) as [msg|df]; cbn.
  - by rewrite drop_app_length.
  - by rewrite drop_all.
Qed.

(** X17.  Loading never raises, and reads a path at most once.  When the
    cache has no entry for the path the file is read: if it cannot be read,
    one error is shown, nothing is returned and the session is left alone;
    if it can, the loaded frame has the rows of the file in order with their
    asset ids, the center code of each row is the first two dash-separated
    parts of its asset id, the center name is the table's name for that code
    and is missing exactly when the code is not in the table, and deriving
    the center columns again changes nothing.  Either outcome is stored
    under the path.  When the cache has an entry for the path, its value is
    returned and its elements are shown again, whatever the disk holds, and
    the cache stays as it is. *)
Theorem load_data_outcome (file_path : string) (cache : Cache) (w : World) :
  match cache !! file_path with
  | Some call =>
      load_data file_path cache w
      = (inr (cached_value call, cache),
         mkWorld (clock w) (session_df w) (disk w) (ui w ++ cached_elements call))
      ∧ ∀ other_disk,
          load_data file_path cache (mkWorld (clock w) (session_df w) other_disk (ui w))
          = (inr (cached_value call, cache),
             mkWorld (clock w) (session_df w) other_disk (ui w ++ cached_elements call))
  | None =>
      match read_excel file_path (disk w) with
      | inl msg =>
          let shown := [Error ("خطأ في تحميل البيانات: " +:+ msg)] in
          load_data file_path cache w
          = (inr (None, <[file_path := mkCachedCall None shown]> cache),
             mkWorld (clock w) (session_df w) (disk w) (ui w ++ shown))
      | inr df =>
          ∃ loaded,
            load_data file_path cache w
            = (inr (Some loaded, <[file_path := mkCachedCall (Some loaded) []]> cache), w)
            ∧ Asset_ID <$> loaded = Asset_ID <$> df
            ∧ Forall (λ r,
                Center_Code r = Some (Py.join_dash (take 2 (Py.split_dash (Asset_ID r))))
                ∧ (∀ name, Center_Name r = Some name
                           ↔ (name, Py.join_dash (take 2 (Py.split_dash (Asset_ID r))))
                             ∈ CENTERS)
                ∧ (Center_Name r = None
                   ↔ ∀ name, (name, Py.join_dash (take 2 (Py.split_dash (Asset_ID r))))
                             ∉ CENTERS)
                ∧ with_center_columns r = r) loaded
      end
  end.
Proof.
  destruct (cache !! file_path) as [call|] eqn:Hcache.
  { split; [by apply load_data_hit|]. intros other_disk.
    by rewrite (load_data_hit _ _ call). }
  rewrite (load_data_miss _ _ _ Hcache).
  destruct (read_excel file_path (disk w)) as [msg|df]; [reflexivity|].
  eexists. split; [reflexivity|].
  split; [rewrite <- list_fmap_compose; by apply list_fmap_ext|].
  apply Forall_fmap, Forall_forall. intros r _. unfold compose.
  assert (Hid : Asset_ID (with_center_columns r) = Asset_ID r) by reflexivity.
  assert (Hcode : Center_Code (with_center_columns r) = Some (center_code_of (Asset_ID r)))
    by reflexivity.
  assert (Hname : Center_Name (with_center_columns r)
                  = CENTERS_DICT !! center_code_of (Asset_ID r)) by reflexivity.
  rewrite Hid, Hcode, Hname. fold (center_code_of (Asset_ID r)).
  split; [done|]. split; [intros name; apply centers_lookup|].
  split; [|apply with_center_columns_idempotent].
  split.
  - intros Hnone name Hin%centers_lookup. congruence.
  - intros Hnot. destruct (CENTERS_DICT !! center_code_of (Asset_ID r)) as [name|] eqn:Hl;
      [|done].
    by apply centers_lookup, Hnot in Hl.
Qed.

(** X18.  Saving and loading again gives the session frame back only
    through an empty cache.  The center columns are dropped on save and
    derived on load; for a frame whose center columns are the derived ones,
    if the write succeeds and the reader returns what was written, then
    [save_data] followed by [load_data] of the same path returns the frame
    itself when the cache has no entry for the path, as in a fresh server
    process.  When it has one, [load_data] returns the entry's value instead
    of the frame saved.  And, with no assumption on the frame or the disk,
    what a call of [load_data] has returned for a path is what every later
    call returns for it while the cache keeps the entry, in whatever state
    the session and the disk are then. *)
Theorem save_then_load_through_cache (df : DataFrame) (file_path : string)
    (cache : Cache) (w : World) :
  (∀ d : Disk,
     (∀ r, r ∈ df → with_center_columns r = r) →
     to_excel (drop_center_columns df) file_path (disk w) = (None, d) →
     read_excel file_path d = inr (drop_center_columns df) →
     ∃ w1,
       save_data df file_path w = (inr true, w1)
       ∧ session_df w1 = session_df w
       ∧ match cache !! file_path with
         | None =>
             load_data file_path cache w1
             = (inr (Some df, <[file_path := mkCachedCall (Some df) []]> cache), w1)
         | Some call =>
             load_data file_path cache w1
             = (inr (cached_value call, cache),
                mkWorld (clock w1) (session_df w1) (disk w1)
                  (ui w1 ++ cached_elements call))
         end)
  ∧ ∀ (w' : World) (first : option DataFrame) (cache' later_cache : Cache)
      (later : World),
      load_data file_path cache w = (inr (first, cache'), w') →
      later_cache !! file_path = cache' !! file_path →
      ∃ later', load_data file_path later_cache later = (inr (first, later_cache), later')
                ∧ clock later' = clock later
                ∧ session_df later' = session_df later
                ∧ disk later' = disk later.
Proof.
  split.
  - intros d Hloaded Hwrite Hread.
    rewrite save_data_run, Hwrite. eexists. split; [reflexivity|]. split; [reflexivity|].
    destruct (cache !! file_path) as [call|] eqn:Hcache; [by apply load_data_hit|].
    rewrite (load_data_miss _ _ _ Hcache). cbn [disk]. rewrite Hread. cbv zeta.
    assert (Hdf : with_center_columns <$> drop_center_columns df = df).
    { unfold drop_center_columns. rewrite <- list_fmap_compose.
      rewrite <- (list_fmap_id df) at 2. apply list_fmap_ext. intros i r Hr.
      apply with_center_columns_drop, Hloaded. by eapply list_elem_of_lookup_2. }
    by rewrite Hdf.
  - intros w' first cache' later_cache later Hfirst Hsame.
    assert (Hentry : ∃ call, cache' !! file_path = Some call ∧ cached_value call = first).
    { destruct (cache !! file_path) as [call|] eqn:Hcache.
      - rewrite (load_data_hit _ _ call _ Hcache) in Hfirst.
        injection Hfirst as <- <- _. eauto.
      - rewrite (load_data_miss _ _ _ Hcache) in Hfirst.
        destruct (read_excel file_path (disk w)); cbv zeta in Hfirst;
          injection Hfirst as <- <- _; eexists; by rewrite lookup_insert_eq. }
    destruct Hentry as (call & Hcall & <-). rewrite <- Hsame in Hcall.
    eexists. split; [by apply load_data_hit|]. done.
Qed.

(** X19.  Applying intervals composes as expected.  For one equipment type
    the later interval wins: applying [N] and then [M] leaves the same frame
    as applying [M] alone, so applying the same interval twice changes
    nothing more.  For two different equipment types the order does not
    matter. *)
Theorem apply_interval_composes (sel1 sel2 : string) (n m : Z) (w : World) :
  sel1 ≠ "" → sel2 ≠ "" →
  session_df (apply_interval sel1 m (apply_interval sel1 n w).2).2
  = session_df (apply_interval sel1 m w).2
  ∧ session_df (apply_interval sel1 n (apply_interval sel1 n w).2).2
    = session_df (apply_interval sel1 n w).2
  ∧ (sel1 ≠ sel2 →
     session_df (apply_interval sel1 n (apply_interval sel2 m w).2).2
     = session_df (apply_interval sel2 m (apply_interval sel1 n w).2).2).
Proof.
  intros H1 H2. rewrite !apply_interval_df by done.
  rewrite <- !list_fmap_compose.
  split; [|split].
  - apply list_fmap_ext. intros _ r _. apply with_interval_overrides.
  - apply list_fmap_ext. intros _ r _. apply with_interval_overrides.
  - intros Hne. apply list_fmap_ext. intros _ r _. by apply with_interval_commutes.
Qed.

End Persistence.

(** ** The properties at concrete inputs *)

(** One device due in five days, evaluated twice in the same world. *)
Lemma status_evaluator_pure_witness :
  let row := device "KHL-PHC-001" "Centrifuge" None (Some (Pd.Timestamp_of_date 20400)) in
  let w := @mkWorld MemDisk.external (Pd.Timestamp_of_date 20395) [row] MemDisk.empty [] in
  ∃ result,
    calculate_maintenance_status row w = (inr result, w)
    ∧ bind (calculate_maintenance_status row)
        (λ first, bind (calculate_maintenance_status row)
                    (λ second, ret (first, second))) w
      = (inr (result, result), w).
Proof.
  intros row w.
  destruct (@status_evaluator_pure MemDisk.external row row w w eq_refl eq_refl)
    as (result & Hfirst & _ & _ & Htwice).
  exists result. by split.
Defined.

(** A log on the second example device with interval 14, evaluated on the
    day of the maintenance. *)
Lemma log_maintenance_round_trip_witness :
  list_find (λ r, Asset_ID r = "KHL-PHC-002") (session_df example_world)
  = Some (1%nat, device "KHL-PHC-002" "Autoclave" None (Some (Pd.Timestamp_of_date 20400)))
  ∧ ∃ row',
      session_df (log_maintenance "KHL-PHC-002" example_form example_world).2 !! 1%nat
      = Some row'
      ∧ Last_Maintenance row' = Some (Pd.Timestamp_of_date 20395)
      ∧ Next_Maintenance row' = Some (Pd.Timestamp_of_date 20395 + Pd.timedelta 14)
      ∧ calculate_maintenance_status row' example_world
        = (inr (Upcoming, icon_yellow), example_world).
Proof.
  split; [reflexivity|].
  destruct (@log_maintenance_round_trip MemDisk.external "KHL-PHC-002" example_form
              example_world 1%nat
              (device "KHL-PHC-002" "Autoclave" None (Some (Pd.Timestamp_of_date 20400)))
              ltac:(discriminate) eq_refl)
    as (row' & Hrow & _ & Hlast & Hnext & Heval).
  exists row'. repeat split; try assumption.
  apply (Heval example_world eq_refl). simpl. lia.
Defined.

(** The same log leaves the first example device and the row count alone. *)
Lemma log_maintenance_frame_witness :
  list_find (λ r, Asset_ID r = "KHL-PHC-002") (session_df example_world)
  = Some (1%nat, device "KHL-PHC-002" "Autoclave" None (Some (Pd.Timestamp_of_date 20400)))
  ∧ length (session_df (log_maintenance "KHL-PHC-002" example_form example_world).2) = 2%nat
  ∧ session_df (log_maintenance "KHL-PHC-002" example_form example_world).2 !! 0%nat
    = example_devices !! 0%nat.
Proof.
  split; [reflexivity|].
  destruct (@log_maintenance_frame MemDisk.external "KHL-PHC-002" example_form
              example_world 1%nat
              (device "KHL-PHC-002" "Autoclave" None (Some (Pd.Timestamp_of_date 20400)))
              ltac:(discriminate) eq_refl)
    as (Hlen & Hother & _).
  split; [exact Hlen|]. apply Hother. lia.
Defined.

(** The same log on a read-only disk: two error messages, edited row kept. *)
Lemma save_failure_keeps_edit_witness :
  let dev := device "KHL-PHC-002" "Autoclave" None (Some (Pd.Timestamp_of_date 20400)) in
  let edited := <[1%nat := logged_row example_form dev]> example_devices in
  log_maintenance "KHL-PHC-002" example_form example_world_locked
  = (inr (),
     @mkWorld MemDisk.external (Pd.Timestamp_of_date 20395) edited MemDisk.locked
       [Error "خطأ في حفظ البيانات: Permission denied"; Error "❌ فشل حفظ البيانات"]).
Proof.
  intros dev edited.
  exact (proj1 (proj2
    (@save_failure_keeps_edit MemDisk.external "KHL-PHC-002" example_form
       example_world_locked 1%nat dev "Permission denied" MemDisk.locked
       ltac:(discriminate) eq_refl eq_refl))).
Defined.

(** A never-maintained device with a next-maintenance date keeps that date
    when an interval is applied to its equipment type. *)
Lemma apply_interval_next_kept_counterexample :
  ∃ r r',
    session_df example_world !! 1%nat = Some r
    ∧ Scientific_Equipment_Name r = Some "Autoclave"
    ∧ Last_Maintenance r = None
    ∧ session_df (apply_interval "Autoclave" 30 example_world).2 !! 1%nat = Some r'
    ∧ Next_Maintenance r' = Some (Pd.Timestamp_of_date 20400)
    ∧ Next_Maintenance r' ≠ None.
Proof. eexists _, _. repeat split; try reflexivity. discriminate. Qed.



(** The code of the first center of the table has seven characters. *)
Lemma center_code_length_counterexample :
  ∃ code,
    CENTERS_DICT_REV !! "الخلاوية" = Some code
    ∧ code = "KHL-PHC"
    ∧ String.length code = 7%nat
    ∧ String.length code ≠ 3%nat.
Proof. exists "KHL-PHC". by vm_compute. Qed.

(** Interval 30 applied to the equipment type of the first example device. *)
Lemma apply_interval_effect_witness :
  "Centrifuge" ≠ ""
  ∧ length (session_df (apply_interval "Centrifuge" 30 example_world).2) = 2%nat
  ∧ ∃ r', session_df (apply_interval "Centrifuge" 30 example_world).2 !! 0%nat = Some r'
        ∧ Maintenance_Interval_Days r' = 30
        ∧ Next_Maintenance r' = Some (Pd.Timestamp_of_date 20300 + Pd.timedelta 30).
Proof.
  split; [discriminate|].
  destruct (@apply_interval_effect MemDisk.external "Centrifuge" 30 example_world
              ltac:(discriminate)) as [Hlen Hrows].
  split; [exact Hlen|].
  destruct (Hrows 0%nat _ eq_refl) as (r' & Hr' & _ & Hmatch).
  destruct (Hmatch eq_refl) as (Hint & Hnext & _).
  exists r'. split; [exact Hr'|]. split; [exact Hint|].
  exact (Hnext _ eq_refl).
Defined.

(** ** The further properties at concrete inputs *)

Lemma example_devices_loaded (r : Row) :
  r ∈ example_devices → with_center_columns r = r.
Proof.
  intros Hin. repeat (apply elem_of_cons in Hin as [->|Hin]; [reflexivity|]).
  by apply elem_of_nil in Hin.
Defined.

Lemma example_devices_on_schedule : Forall on_schedule example_devices.
Proof. repeat constructor; intros last [= <-]; reflexivity. Defined.


(** The id allocated over the example devices is not one of theirs. *)
Lemma allocation_is_fresh_witness :
  CENTERS_DICT_REV !! "الخلاوية" = Some "KHL-PHC"
  ∧ new_asset_id example_devices "KHL-PHC" ∉ (Asset_ID <$> example_devices).
Proof.
  split; [reflexivity|].
  exact (proj2 (@allocation_is_fresh example_devices "الخلاوية" "KHL-PHC" eq_refl)
           example_devices_loaded).
Defined.

(** A form without an equipment name. *)
Lemma add_device_rejects_incomplete_form_witness :
  add_device example_incomplete_form example_world
  = (inr (),
     @mkWorld MemDisk.external (Pd.Timestamp_of_date 20395) example_devices MemDisk.empty
       [Error "⚠️ يرجى ملء جميع الحقول المطلوبة (*)"]).
Proof.
  exact (@add_device_rejects_incomplete_form MemDisk.external example_incomplete_form
           example_world (or_introl eq_refl)).
Defined.


(** Deleting the first example device, with and without confirmation. *)
Lemma delete_device_effect_witness :
  delete_device "KHL-PHC-001" false example_world = (inr (), example_world)
  ∧ (length (session_df (delete_device "KHL-PHC-001" true example_world).2) < 2)%nat.
Proof.
  destruct (@delete_device_effect MemDisk.external "KHL-PHC-001" example_world 0%nat
              (device "KHL-PHC-001" "Centrifuge"
                 (Some (Pd.Timestamp_of_date 20300)) (Some (Pd.Timestamp_of_date 20390)))
              ltac:(discriminate) eq_refl) as (Hno & _ & _ & Hlen & _).
  split; [exact Hno|exact Hlen].
Defined.

(** Editing the interval of the first example device from 90 to 30 days. *)
Lemma update_device_keeps_dates_witness :
  ∃ row',
    session_df (update_device "KHL-PHC-001" example_edit_form example_world).2 !! 0%nat
    = Some row'
    ∧ Maintenance_Interval_Days row' = 30
    ∧ Next_Maintenance row' = Some (Pd.Timestamp_of_date 20390)
    ∧ ¬ on_schedule row'.
Proof.
  destruct (@update_device_keeps_dates MemDisk.external "KHL-PHC-001" example_edit_form
              example_world 0%nat
              (device "KHL-PHC-001" "Centrifuge"
                 (Some (Pd.Timestamp_of_date 20300)) (Some (Pd.Timestamp_of_date 20390)))
              ltac:(discriminate) eq_refl)
    as (_ & _ & row' & Hrow & _ & _ & _ & _ & _ & Hint & _ & Hnext & _ & _ & _ & _ & _
        & _ & _ & _ & _ & Hoff).
  exists row'. split; [exact Hrow|]. split; [exact Hint|]. split; [exact Hnext|].
  apply Hoff; [by eexists| |discriminate].
  intros last [= <-]. reflexivity.
Defined.

(** The example session stays on schedule under a log and a bulk update;
    and in the session left by an interval edit, where the centrifuge is off
    schedule, a bulk update of the centrifuges puts it back on schedule. *)
Lemma log_and_apply_keep_schedule_witness :
  Forall on_schedule (session_df (log_maintenance "KHL-PHC-002" example_form example_world).2)
  ∧ Forall on_schedule (session_df (apply_interval "Centrifuge" 30 example_world).2)
  ∧ ¬ Forall on_schedule (session_df example_off_schedule_world)
  ∧ ∀ r, r ∈ session_df (apply_interval "Centrifuge" 45 example_off_schedule_world).2 →
         Scientific_Equipment_Name r = Some "Centrifuge" →
         on_schedule r ∧ Maintenance_Interval_Days r = 45.
Proof.
  destruct (@log_and_apply_keep_schedule MemDisk.external example_world)
    as (Hkeep & _).
  destruct (Hkeep example_devices_on_schedule) as (Hlog & Happly).
  destruct (@log_and_apply_keep_schedule MemDisk.external example_off_schedule_world)
    as (_ & Hany).
  split; [|split; [|split]].
  - apply (Hlog "KHL-PHC-002" example_form 1%nat
             (device "KHL-PHC-002" "Autoclave" None (Some (Pd.Timestamp_of_date 20400))));
      [discriminate|reflexivity].
  - apply Happly. discriminate.
  - intros Hall. apply Forall_cons in Hall as [Hfirst _].
    specialize (Hfirst _ eq_refl). discriminate Hfirst.
  - intros r. apply Hany. discriminate.
Defined.

(** The second example device, five days before it is due and five days
    after. *)
Lemma status_never_improves_witness :
  let row := device "KHL-PHC-002" "Autoclave" None (Some (Pd.Timestamp_of_date 20400)) in
  let later := @mkWorld MemDisk.external (Pd.Timestamp_of_date 20405) example_devices
                 MemDisk.empty [] in
  ∃ label1 icon1 label2 icon2,
    calculate_maintenance_status row example_world = (inr (label1, icon1), example_world)
    ∧ calculate_maintenance_status row later = (inr (label2, icon2), later)
    ∧ severity label1 ≤ severity label2.
Proof.
  intros row later.
  assert (Hclock : clock example_world ≤ clock later) by (intros Hgt; discriminate Hgt).
  destruct (@status_never_improves MemDisk.external row example_world later Hclock)
    as (label1 & icon1 & label2 & icon2 & H1 & H2 & Hle & _).
  exists label1, icon1, label2, icon2.
  split; [exact H1|]. split; [exact H2|exact Hle].
Defined.

(** The dashboard of the example session under the default status filter. *)
Lemma dashboard_status_filter_hides_broken_witness :
  ∃ board,
    show_dashboard [] [] [Working] example_world = (inr board, example_world)
    ∧ broken board = 0%nat
    ∧ working board = total board.
Proof.
  destruct (@dashboard_status_filter_hides_broken MemDisk.external [] [] [Working]
              example_world ltac:(discriminate)) as (board & Hrun & Hbroken & Hworking).
  exists board. split; [exact Hrun|]. split; [|by apply Hworking].
  apply Hbroken. intros Hin. apply list_elem_of_singleton in Hin. discriminate Hin.
Defined.


(** The one-week schedule of a device due at the instant the range is read:
    its line counts zero days, and a nanosecond later the evaluator has the
    row Overdue, within the bounds of the range. *)
Lemma schedule_ranges_bound_statuses_witness :
  ∃ lines,
    show_schedule range_week [] all_option example_due_world = (inr lines, example_due_world)
    ∧ Forall (λ line,
        Days_Until line = Some 0
        ∧ Status_Icon line ∈ [icon_orange; icon_red]
        ∧ ∃ label icon,
            calculate_maintenance_status (schedule_row line) example_due_world_later
            = (inr (label, icon), example_due_world_later)
            ∧ ((label = Urgent ∧ icon = icon_orange) ∨ (label = Overdue ∧ icon = icon_red)))
        lines.
Proof.
  destruct (@schedule_ranges_bound_statuses MemDisk.external range_week [] all_option
              example_due_world) as (lines & Hrun & Hlines).
  exists lines. split; [exact Hrun|].
  eapply Forall_impl; [exact Hlines|]. cbv zeta.
  intros line (Hin & _ & _ & next & days_until & Hnext & Hdays & Hfloor & _ & Hweek & _
               & _ & _ & Hlater).
  apply list_elem_of_singleton in Hin.
  rewrite Hin in Hnext. injection Hnext as <-.
  destruct (Hweek eq_refl) as (_ & _ & Hicon).
  assert (Hclock : clock example_due_world ≤ clock example_due_world_later)
    by (intros Hgt; discriminate Hgt).
  destruct (Hlater example_due_world_later Hclock) as (label & icon & Heval & _ & Hbound & _).
  split; [rewrite Hdays, Hfloor; reflexivity|]. split; [exact Hicon|].
  exists label, icon. split; [exact Heval|]. exact (Hbound eq_refl).
Defined.

(** A device due in seven days and one nanosecond. *)
Lemma week_schedule_misses_urgent_witness :
  calculate_maintenance_status example_gap_device example_gap_world
  = (inr (Urgent, icon_orange), example_gap_world)
  ∧ ∀ lines,
      show_schedule range_week [] all_option example_gap_world = (inr lines, example_gap_world) →
      example_gap_device ∉ schedule_row <$> lines.
Proof.
  destruct (@week_schedule_misses_urgent MemDisk.external example_gap_device
              (Pd.Timestamp_of_date 20402 + 1) example_gap_world
              (list_elem_of_here _ _) eq_refl ltac:(by vm_compute))
    as (Hstatus & _ & Hmiss).
  split; [exact Hstatus|]. intros lines. apply Hmiss.
Defined.

(** The report of the first center of the table over the example session. *)
Lemma export_report_contents_witness :
  ∃ all_lines center_lines,
    export_maintenance_report example_devices None example_world = (inr all_lines, example_world)
    ∧ export_maintenance_report example_devices (Some "الخلاوية") example_world
      = (inr center_lines, example_world)
    ∧ all_lines.*1 = example_devices.
Proof.
  destruct (@export_report_contents MemDisk.external example_devices "الخلاوية"
              example_world ltac:(discriminate))
    as (all_lines & center_lines & Hall & Hcenter & Hrows & _).
  exists all_lines, center_lines. split; [exact Hall|]. split; [exact Hcenter|exact Hrows].
Defined.

(** A log on the never-maintained second example device. *)
Lemma log_maintenance_counts_completed_witness :
  ∃ before after,
    maintenance_statistics example_world = (inr before, example_world)
    ∧ maintenance_statistics (log_maintenance "KHL-PHC-002" example_form example_world).2
      = (inr after, (log_maintenance "KHL-PHC-002" example_form example_world).2)
    ∧ completed after = (completed before + 1)%nat.
Proof.
  destruct (@log_maintenance_counts_completed MemDisk.external "KHL-PHC-002" example_form
              example_world 1%nat
              (device "KHL-PHC-002" "Autoclave" None (Some (Pd.Timestamp_of_date 20400)))
              ltac:(discriminate) eq_refl) as (before & after & Hb & Ha & Hc).
  exists before, after. split; [exact Hb|]. split; [exact Ha|exact Hc].
Defined.

(** Loading from the empty in-memory disk through an empty cache: the
    failure is shown and stored, and the next load, from a disk that now has
    the file, returns the stored failure and shows it again. *)
Lemma load_data_outcome_witness :
  let shown := [Error "خطأ في تحميل البيانات: No such file or directory"] in
  let cache := <[data_file := mkCachedCall None shown]> (∅ : Cache) in
  let disk_with_file := MemDisk.mkState (<[data_file := example_devices]> ∅) false in
  load_data data_file ∅ example_world
  = (inr (None, cache),
     @mkWorld MemDisk.external (Pd.Timestamp_of_date 20395) example_devices MemDisk.empty
       shown)
  ∧ load_data data_file cache
      (@mkWorld MemDisk.external (Pd.Timestamp_of_date 20395) example_devices
         disk_with_file [])
    = (inr (None, cache),
       @mkWorld MemDisk.external (Pd.Timestamp_of_date 20395) example_devices
         disk_with_file shown).
Proof.
  intros shown cache disk_with_file. split.
  - exact (@load_data_outcome MemDisk.external data_file ∅ example_world).
  - exact (proj2 (@load_data_outcome MemDisk.external data_file cache example_world)
             disk_with_file).
Defined.

(** Saving the example session to the in-memory disk and loading it back,
    through an empty cache and through the cache left by an earlier load of
    an empty spreadsheet. *)
Lemma save_then_load_through_cache_witness :
  ∃ w1,
    save_data example_devices data_file example_world = (inr true, w1)
    ∧ load_data data_file ∅ w1
      = (inr (Some example_devices,
              <[data_file := mkCachedCall (Some example_devices) []]> ∅), w1)
    ∧ load_data data_file example_cache w1 = (inr (Some [], example_cache), w1).
Proof.
  destruct (proj1 (@save_then_load_through_cache MemDisk.external example_devices
                     data_file ∅ example_world)
              (MemDisk.mkState (<[data_file := drop_center_columns example_devices]> ∅) false)
              example_devices_loaded eq_refl ltac:(by vm_compute))
    as (w1 & Hsave & _ & Hload).
  destruct (proj1 (@save_then_load_through_cache MemDisk.external example_devices
                     data_file example_cache example_world)
              (MemDisk.mkState (<[data_file := drop_center_columns example_devices]> ∅) false)
              example_devices_loaded eq_refl ltac:(by vm_compute))
    as (w2 & Hsave2 & _ & Hstale).
  exists w1. split; [exact Hsave|]. split; [exact Hload|].
  rewrite Hsave in Hsave2. injection Hsave2 as <-.
  etrans; [exact Hstale|]. cbn [cached_value cached_elements].
  rewrite app_nil_r. by destruct w1.
Defined.

(** Two intervals for one equipment type of the example session. *)
Lemma apply_interval_composes_witness :
  session_df (apply_interval "Centrifuge" 30 (apply_interval "Centrifuge" 60 example_world).2).2
  = session_df (apply_interval "Centrifuge" 30 example_world).2.
Proof.
  exact (proj1 (@apply_interval_composes MemDisk.external "Centrifuge" "Autoclave" 60 30
                  example_world ltac:(discriminate) ltac:(discriminate))).
Defined.
